(** * provision/docker: the container and image driver of docker.go

    A shallow embedding of [provision/docker/docker.go].  The driver talks
    to two collaborators that live outside the file: package [config]
    (key lookups) and the process executor behind [executor()].  Both are
    taken at their interface: a lookup yields a value or an [error], an
    execution yields the text written to the shared output buffer and an
    optional [error].  Logging and executions are recorded, in program
    order, in an event trace. *)

From Stdlib Require Import ZArith String Ascii List.
From stdpp Require Import base option strings list gmap.

Local Open Scope string_scope.

(** ** Go values used by the driver *)

(** Go's [error] interface.  [errorString] is what [errors.New] builds;
    [foreign] is an error value made by a collaborator (package config, the
    executor). *)
Inductive error : Type :=
| errorString (text : string)
| foreign (text : string).

Definition errors_New (text : string) : error := errorString text.

(** [err.Error()] *)
Definition Error (e : error) : string :=
  match e with
  | errorString t => t
  | foreign t => t
  end.

(** The line feed, written [\n] in the Go source. *)
Definition LF : ascii := "010"%char.

(** ** Collaborators *)

(** Package config: [config.GetString] and [config.GetList]. *)
Record Config : Type := {
  GetString : string -> string + error;
  GetList : string -> list string + error
}.

(** [executor().Execute(cmd, args, nil, &out, &out)]: the text that ends up
    in [out] (both streams share the buffer) and the returned error. *)
Record Executor : Type := {
  Execute : string -> list string -> string * option error
}.

(** An operand of a formatting call: a string, an error, a slice of
    strings. *)
Inductive operand : Type :=
| OStr (s : string)
| OErr (e : error)
| OList (l : list string).

(** What an operation does to the outside, in program order: a call of
    [log.Printf] with its format and operands, a call of [log.Print] with its
    message, a call of the executor with the command and its arguments. *)
Inductive event : Type :=
| Printf (format : string) (ops : list operand)
| Print (msg : string)
| Executed (cmd : string) (args : list string).

Definition is_execution (ev : event) : bool :=
  match ev with
  | Executed _ _ => true
  | _ => false
  end.

(** The external invocations of a trace, oldest first. *)
Definition executions (tr : list event) : list event := List.filter is_execution tr.

(** ** Formatting: the part of package fmt the file uses *)

Fixpoint join (sep : string) (l : list string) : string :=
  match l with
  | [] => EmptyString
  | [x] => x
  | x :: rest => x +:+ sep +:+ join sep rest
  end.

(** How the verb [%s] prints an operand: a string as it is, an error by its
    [Error()] text, a slice of strings between brackets, separated by
    spaces. *)
Definition verb_s (o : operand) : string :=
  match o with
  | OStr s => s
  | OErr e => Error e
  | OList l => "[" +:+ join " " l +:+ "]"
  end.

(** [fmt.Sprintf] for formats whose only verb is [%s]: each [%s] takes the next
    operand, and prints [%!s(MISSING)] when none is left.  Every format in
    docker.go is of this kind and none has operands left over. *)
Fixpoint Sprintf (format : string) (ops : list operand) : string :=
  match format with
  | EmptyString => EmptyString
  | String "%" (String "s" rest) =>
      match ops with
      | o :: ops' => verb_s o +:+ Sprintf rest ops'
      | [] => "%!s(MISSING)" +:+ Sprintf rest []
      end
  | String ch rest => String ch (Sprintf rest ops)
  end.

(** [strings.Replace(s, old, new, -1)] for a one-byte [old]: every occurrence
    is replaced. *)
Fixpoint strings_Replace (s : string) (old : ascii) (new : string) : string :=
  match s with
  | EmptyString => EmptyString
  | String ch rest =>
      if Ascii.eqb ch old then new +:+ strings_Replace rest old new
      else String ch (strings_Replace rest old new)
  end.

(** ** encoding/json: decoding into [map[string]interface{}]

    [json.Unmarshal] belongs to Go's library.  The decoder below follows its
    scanner state by state (the names are the scanner's), builds the values
    the way [decodeState] does for an [interface{}] target, and unquotes
    strings as [unquoteBytes] does.  Two things are left out: a float64 is
    kept by its literal (the driver reads no number), and the wording of the
    library's error messages. *)

(** The dynamic types an [interface{}] decoded by encoding/json can hold. *)
Inductive gotype : Type :=
| TNil | TBool | TFloat64 | TString | TSlice | TMap.

Module json.

#[local] Set Warnings "-register-all".
Local Open Scope Z_scope.

Inductive value : Type :=
| VNil
| VBool (b : bool)
| VFloat64 (lit : string)
| VString (s : string)
| VSlice (l : list value)
| VMap (m : gmap string value).

Definition typeof (v : value) : gotype :=
  match v with
  | VNil => TNil
  | VBool _ => TBool
  | VFloat64 _ => TFloat64
  | VString _ => TString
  | VSlice _ => TSlice
  | VMap _ => TMap
  end.

Definition code (c : ascii) : Z := Z.of_N (N_of_ascii c).
Definition chr (z : Z) : ascii := ascii_of_N (Z.to_N z).

Definition isSpace (c : ascii) : bool :=
  match c with
  | " " | "009" | "010" | "013" => true
  | _ => false
  end%char.

Definition digit (c : ascii) : option Z :=
  let n := code c in
  if (48 <=? n) && (n <=? 57) then Some (n - 48) else None.

Definition hexdigit (c : ascii) : option Z :=
  let n := code c in
  if (48 <=? n) && (n <=? 57) then Some (n - 48)
  else if (97 <=? n) && (n <=? 102) then Some (n - 87)
  else if (65 <=? n) && (n <=? 70) then Some (n - 55)
  else None.

(** *** Strings *)

(** What the scanner read inside a string literal: a byte as it stands, a
    one-letter escape already resolved, or a [\uXXXX] escape. *)
Inductive piece : Type :=
| Raw (c : ascii)
| Esc (c : ascii)
| U4 (rr : Z).

Definition RuneError : Z := 0xFFFD.

(** [utf8.EncodeRune] *)
Definition EncodeRune (r : Z) : list ascii :=
  let r := if (r <? 0) || (0x10FFFF <? r) || ((0xD800 <=? r) && (r <? 0xE000))
           then RuneError else r in
  if r <? 0x80 then [chr r]
  else if r <? 0x800 then
    [chr (Z.lor 0xC0 (Z.shiftr r 6)); chr (Z.lor 0x80 (Z.land r 0x3F))]
  else if r <? 0x10000 then
    [chr (Z.lor 0xE0 (Z.shiftr r 12));
     chr (Z.lor 0x80 (Z.land (Z.shiftr r 6) 0x3F));
     chr (Z.lor 0x80 (Z.land r 0x3F))]
  else
    [chr (Z.lor 0xF0 (Z.shiftr r 18));
     chr (Z.lor 0x80 (Z.land (Z.shiftr r 12) 0x3F));
     chr (Z.lor 0x80 (Z.land (Z.shiftr r 6) 0x3F));
     chr (Z.lor 0x80 (Z.land r 0x3F))].

Definition between (lo hi b : Z) : bool := (lo <=? b) && (b <=? hi).
Definition cont (b : Z) : bool := between 0x80 0xBF b.

(** The size [utf8.DecodeRune] reports for the bytes [b0 :: next] when they
    start with a well-formed encoding; 0 when they do not (DecodeRune then
    yields [RuneError] and consumes one byte). *)
Definition rune_len (b0 : Z) (next : list Z) : nat :=
  if b0 <? 0x80 then 1%nat
  else if between 0xC2 0xDF b0 then
    match next with
    | b1 :: _ => if cont b1 then 2%nat else 0%nat
    | _ => 0%nat
    end
  else if between 0xE0 0xEF b0 then
    match next with
    | b1 :: b2 :: _ =>
        let lo := if b0 =? 0xE0 then 0xA0 else 0x80 in
        let hi := if b0 =? 0xED then 0x9F else 0xBF in
        if between lo hi b1 && cont b2 then 3%nat else 0%nat
    | _ => 0%nat
    end
  else if between 0xF0 0xF4 b0 then
    match next with
    | b1 :: b2 :: b3 :: _ =>
        let lo := if b0 =? 0xF0 then 0x90 else 0x80 in
        let hi := if b0 =? 0xF4 then 0x8F else 0xBF in
        if between lo hi b1 && cont b2 && cont b3 then 4%nat else 0%nat
    | _ => 0%nat
    end
  else 0%nat.

(** The bytes that follow as they stand, up to the next escape. *)
Fixpoint raw_prefix (ps : list piece) : list Z :=
  match ps with
  | Raw c :: rest => code c :: raw_prefix rest
  | _ => []
  end.

(** [utf16.DecodeRune] *)
Definition utf16_DecodeRune (r1 r2 : Z) : Z :=
  if between 0xD800 0xDBFF r1 && between 0xDC00 0xDFFF r2
  then Z.lor (Z.shiftl (r1 - 0xD800) 10) (r2 - 0xDC00) + 0x10000
  else RuneError.

(** The loop of [unquoteBytes]: escapes are resolved, a surrogate escape is
    joined with the escape that follows it when the two make a pair and
    becomes U+FFFD otherwise, and bytes that are not well-formed UTF-8 are
    replaced by U+FFFD one at a time.  [skip] counts the continuation bytes
    of an encoding already accepted. *)
Fixpoint unquote (ps : list piece) (skip : nat) : list ascii :=
  match ps with
  | [] => []
  | Esc c :: rest => c :: unquote rest 0
  | U4 rr :: rest =>
      if between 0xD800 0xDFFF rr then
        match rest with
        | U4 rr1 :: rest' =>
            let dec := utf16_DecodeRune rr rr1 in
            if dec =? RuneError
            then (EncodeRune RuneError ++ unquote rest 0)%list
            else (EncodeRune dec ++ unquote rest' 0)%list
        | _ => (EncodeRune RuneError ++ unquote rest 0)%list
        end
      else (EncodeRune rr ++ unquote rest 0)%list
  | Raw c :: rest =>
      match skip with
      | S k => c :: unquote rest k
      | O =>
          match rune_len (code c) (raw_prefix rest) with
          | O => (EncodeRune RuneError ++ unquote rest 0)%list
          | S k => c :: unquote rest k
          end
      end
  end.

(** *** Numbers *)

(** The value of a number literal as [mant * 10 ^ exp10] (its sign left
    out): digits before and after the point go to the mantissa, each digit
    after the point lowers the exponent. *)
Record decimal : Type := {
  mant : Z;
  frac : Z;
  esign : Z;
  expo : Z;
  phase : nat
}.

Definition read_decimal (d : decimal) (c : ascii) : decimal :=
  match digit c, phase d with
  | Some n, 0%nat =>
      {| mant := mant d * 10 + n; frac := frac d; esign := esign d;
         expo := expo d; phase := 0 |}
  | Some n, 1%nat =>
      {| mant := mant d * 10 + n; frac := frac d + 1; esign := esign d;
         expo := expo d; phase := 1 |}
  | Some n, _ =>
      {| mant := mant d; frac := frac d; esign := esign d;
         expo := expo d * 10 + n; phase := phase d |}
  | None, _ =>
      if Ascii.eqb c "." then
        {| mant := mant d; frac := frac d; esign := esign d;
           expo := expo d; phase := 1 |}
      else if Ascii.eqb c "e" || Ascii.eqb c "E" then
        {| mant := mant d; frac := frac d; esign := esign d;
           expo := expo d; phase := 2 |}
      else if Ascii.eqb c "-" && Nat.eqb (phase d) 2 then
        {| mant := mant d; frac := frac d; esign := -1;
           expo := expo d; phase := 2 |}
      else d
  end.

(** [strconv.ParseFloat(lit, 64)] reports a range error exactly when the
    literal rounds to an infinity: when its magnitude reaches
    [2^1024 - 2^970], half an ulp above the largest float64. *)
Definition overflows (lit : list ascii) : bool :=
  let d := fold_left read_decimal lit
             {| mant := 0; frac := 0; esign := 1; expo := 0; phase := 0 |} in
  let exp10 := esign d * expo d - frac d in
  let limit := 2 ^ 1024 - 2 ^ 970 in
  if 0 <=? exp10 then limit <=? mant d * 10 ^ exp10
  else limit * 10 ^ (- exp10) <=? mant d.

(** *** The scanner and the values it builds *)

Inductive numstate : Type :=
| stateNeg | state0 | state1 | stateDot | stateDot0 | stateE | stateESign | stateE0.

Inductive mode : Type :=
| stateBeginValue
| stateBeginValueOrEmpty
| stateBeginStringOrEmpty
| stateBeginString
| stateEndKey
| stateEndValue
| stateEndTop (v : value)
| stateInString (key : bool) (ps : list piece)
| stateInStringEsc (key : bool) (ps : list piece)
| stateInStringEscU (key : bool) (ps : list piece) (n : nat) (rr : Z)
| stateNumber (st : numstate) (lit : list ascii)
| stateLiteral (rest : list ascii) (v : value).

(** A container being filled: an array with its elements so far (the newest
    first), an object with its members so far and the key whose value is
    being read. *)
Inductive frame : Type :=
| FArray (acc : list value)
| FObject (m : gmap string value) (key : option string).

Inductive failure : Type :=
| SyntaxError
| UnmarshalTypeError (Value : string) (Type_ : string).

Record state : Type := {
  step : mode;
  parseState : list frame;
  savedError : option failure
}.

Definition goto (s : state) (m : mode) : option state :=
  Some {| step := m; parseState := parseState s; savedError := savedError s |}.

(** [d.saveError]: the first error is kept. *)
Definition saveError (saved : option failure) (f : failure) : option failure :=
  match saved with
  | Some _ => saved
  | None => Some f
  end.

(** A value is complete: it goes into the container being filled, or it is
    the top-level value. *)
Definition complete (s : state) (v : value) : option state :=
  match parseState s with
  | [] =>
      Some {| step := stateEndTop v; parseState := []; savedError := savedError s |}
  | FArray acc :: rest =>
      Some {| step := stateEndValue; parseState := FArray (v :: acc) :: rest;
              savedError := savedError s |}
  | FObject m (Some k) :: rest =>
      Some {| step := stateEndValue; parseState := FObject (<[k := v]> m) None :: rest;
              savedError := savedError s |}
  | FObject _ None :: _ => None
  end.

Definition pop (s : state) : state :=
  {| step := step s; parseState := tail (parseState s); savedError := savedError s |}.

(** [pushParseState]: current releases of the library refuse to nest
    containers deeper than [maxNestingDepth] (the release of 2013 set no
    limit). *)
Definition maxNestingDepth : Z := 10000.

Definition push (s : state) (f : frame) (m : mode) : option state :=
  if Z.of_nat (length (parseState s)) <? maxNestingDepth
  then Some {| step := m; parseState := f :: parseState s;
               savedError := savedError s |}
  else None.

(** After a value: a comma, the end of the container, or nothing but space
    at top level. *)
Definition after_value (s : state) (c : ascii) : option state :=
  match step s with
  | stateEndTop _ => if isSpace c then Some s else None
  | stateEndValue =>
      if isSpace c then Some s
      else match parseState s with
      | FArray acc :: _ =>
          if Ascii.eqb c "," then goto s stateBeginValue
          else if Ascii.eqb c "]" then complete (pop s) (VSlice (rev acc))
          else None
      | FObject m None :: _ =>
          if Ascii.eqb c "," then goto s stateBeginString
          else if Ascii.eqb c "}" then complete (pop s) (VMap m)
          else None
      | _ => None
      end
  | _ => None
  end.

Definition begin_value (s : state) (c : ascii) : option state :=
  if isSpace c then Some s
  else match c with
  | "{" => push s (FObject ∅ None) stateBeginStringOrEmpty
  | "[" => push s (FArray []) stateBeginValueOrEmpty
  | "034" => goto s (stateInString false [])
  | "-" => goto s (stateNumber stateNeg [c])
  | "0" => goto s (stateNumber state0 [c])
  | "t" => goto s (stateLiteral ["r"; "u"; "e"]%char (VBool true))
  | "f" => goto s (stateLiteral ["a"; "l"; "s"; "e"]%char (VBool false))
  | "n" => goto s (stateLiteral ["u"; "l"; "l"]%char VNil)
  | _ =>
      match digit c with
      | Some _ => goto s (stateNumber state1 [c])
      | None => None
      end
  end%char.

Definition begin_string (s : state) (c : ascii) : option state :=
  if isSpace c then Some s
  else if Ascii.eqb c "034" then goto s (stateInString true [])
  else None.

(** The closing quote of a string: a key is remembered in its object, any
    other string is a value. *)
Definition end_string (s : state) (key : bool) (ps : list piece) : option state :=
  let str := string_of_list_ascii (unquote (rev ps) 0) in
  if key then
    match parseState s with
    | FObject m _ :: rest =>
        Some {| step := stateEndKey; parseState := FObject m (Some str) :: rest;
                savedError := savedError s |}
    | _ => None
    end
  else complete s (VString str).

(** The end of a number literal: [convertNumber], whose range error is saved
    while decoding goes on. *)
Definition end_number (s : state) (lit : list ascii) (c : ascii) : option state :=
  let text := string_of_list_ascii (rev lit) in
  let s' :=
    if overflows (rev lit)
    then {| step := step s; parseState := parseState s;
            savedError := saveError (savedError s)
                            (UnmarshalTypeError ("number " +:+ text) "float64") |}
    else s in
  match complete s' (if overflows (rev lit) then VNil else VFloat64 text) with
  | Some s'' => after_value s'' c
  | None => None
  end.

Definition number (s : state) (st : numstate) (lit : list ascii) (c : ascii)
  : option state :=
  let isdigit := match digit c with Some _ => true | None => false end in
  let more st' := goto s (stateNumber st' (c :: lit)) in
  let exponent := Ascii.eqb c "e" || Ascii.eqb c "E" in
  match st with
  | stateNeg =>
      if Ascii.eqb c "0" then more state0
      else if isdigit then more state1
      else None
  | state1 =>
      if isdigit then more state1
      else if Ascii.eqb c "." then more stateDot
      else if exponent then more stateE
      else end_number s lit c
  | state0 =>
      if Ascii.eqb c "." then more stateDot
      else if exponent then more stateE
      else end_number s lit c
  | stateDot => if isdigit then more stateDot0 else None
  | stateDot0 =>
      if isdigit then more stateDot0
      else if exponent then more stateE
      else end_number s lit c
  | stateE =>
      if Ascii.eqb c "+" || Ascii.eqb c "-" then more stateESign
      else if isdigit then more stateE0
      else None
  | stateESign => if isdigit then more stateE0 else None
  | stateE0 => if isdigit then more stateE0 else end_number s lit c
  end.

(** One byte of input; [None] is a syntax error. *)
Definition scan (s : state) (c : ascii) : option state :=
  match step s with
  | stateBeginValue => begin_value s c
  | stateBeginValueOrEmpty =>
      if isSpace c then Some s
      else if Ascii.eqb c "]" then complete (pop s) (VSlice [])
      else begin_value s c
  | stateBeginStringOrEmpty =>
      if isSpace c then Some s
      else if Ascii.eqb c "}" then complete (pop s) (VMap ∅)
      else begin_string s c
  | stateBeginString => begin_string s c
  | stateEndKey =>
      if isSpace c then Some s
      else if Ascii.eqb c ":" then goto s stateBeginValue
      else None
  | stateEndValue | stateEndTop _ => after_value s c
  | stateInString key ps =>
      if Ascii.eqb c "034" then end_string s key ps
      else if Ascii.eqb c "\" then goto s (stateInStringEsc key ps)
      else if code c <? 0x20 then None
      else goto s (stateInString key (Raw c :: ps))
  | stateInStringEsc key ps =>
      let esc b := goto s (stateInString key (Esc b :: ps)) in
      match c with
      | "b" => esc "008"
      | "f" => esc "012"
      | "n" => esc "010"
      | "r" => esc "013"
      | "t" => esc "009"
      | "\" | "/" | "034" => esc c
      | "u" => goto s (stateInStringEscU key ps 0 0)
      | _ => None
      end%char
  | stateInStringEscU key ps n rr =>
      match hexdigit c with
      | Some h =>
          let rr' := rr * 16 + h in
          if Nat.eqb n 3 then goto s (stateInString key (U4 rr' :: ps))
          else goto s (stateInStringEscU key ps (S n) rr')
      | None => None
      end
  | stateNumber st lit => number s st lit c
  | stateLiteral rest v =>
      match rest with
      | [] => None
      | x :: rest' =>
          if Ascii.eqb c x then
            match rest' with
            | [] => complete s v
            | _ => goto s (stateLiteral rest' v)
            end
          else None
      end
  end.

Fixpoint scan_all (s : state) (data : list ascii) : option state :=
  match data with
  | [] => Some s
  | c :: rest =>
      match scan s c with
      | Some s' => scan_all s' rest
      | None => None
      end
  end.

(** The whole text: at its end the scanner is fed one space and must then
    be past a complete top-level value. *)
Definition decode (data : string) : option (value * option failure) :=
  let start := {| step := stateBeginValue; parseState := []; savedError := None |} in
  match scan_all start (list_ascii_of_string data) with
  | Some s =>
      match scan s " " with
      | Some {| step := stateEndTop v; savedError := saved |} => Some (v, saved)
      | _ => None
      end
  | None => None
  end.

Definition map_type : string := "map[string]interface {}".

(** The library's error as a Go [error]; the text tells the kind of failure
    and is not the library's wording. *)
Definition as_error (f : failure) : error :=
  match f with
  | SyntaxError => foreign "json: syntax error"
  | UnmarshalTypeError v t =>
      foreign ("json: cannot unmarshal " +:+ v +:+ " into Go value of type " +:+ t)
  end.

(** [json.Unmarshal(data, &result)] for a nil [result] of type
    [map[string]interface{}]: an object fills the map, [null] leaves it nil
    (a nil map has no key), anything else is a type error.  A top-level
    number is refused for the map whatever its size: [decode] yields the
    nil value with a saved error only for a top-level number out of the
    float64 range, which is a number like any other here. *)
Definition Unmarshal (data : string) : gmap string value + error :=
  match decode data with
  | None => inr (as_error SyntaxError)
  | Some (VMap m, None) => inl m
  | Some (VMap m, Some f) => inr (as_error f)
  | Some (VNil, None) => inl ∅
  | Some (VNil, Some _) => inr (as_error (UnmarshalTypeError "number" map_type))
  | Some (VBool _, _) => inr (as_error (UnmarshalTypeError "bool" map_type))
  | Some (VFloat64 _, _) => inr (as_error (UnmarshalTypeError "number" map_type))
  | Some (VString _, _) => inr (as_error (UnmarshalTypeError "string" map_type))
  | Some (VSlice _, _) => inr (as_error (UnmarshalTypeError "array" map_type))
  end.

End json.

(** ** The monad of methods

    A method with receiver type [R] reads and may write the receiver (Go
    passes it by pointer), appends to the event trace, and either returns
    or panics. *)

(** [runtime.TypeAssertionError]: the value held [concrete], the assertion
    wanted [asserted]. *)
Record TypeAssertionError : Type := {
  concrete : gotype;
  asserted : gotype
}.

Inductive result (A : Type) : Type :=
| Returned (a : A)
| Panicked (p : TypeAssertionError).
Arguments Returned {A} a.
Arguments Panicked {A} p.

Definition Meth (R A : Type) : Type :=
  R -> list event -> result A * R * list event.

Definition ret {R A} (a : A) : Meth R A :=
  fun r tr => (Returned a, r, tr).

Definition bind {R A B} (m : Meth R A) (k : A -> Meth R B) : Meth R B :=
  fun r tr =>
    match m r tr with
    | (Returned a, r', tr') => k a r' tr'
    | (Panicked p, r', tr') => (Panicked p, r', tr')
    end.

Definition panic {R A} (p : TypeAssertionError) : Meth R A :=
  fun r tr => (Panicked p, r, tr).

(** Reads a field of the receiver. *)
Definition field {R A} (f : R -> A) : Meth R A :=
  fun r tr => (Returned (f r), r, tr).

Definition emit {R} (ev : event) : Meth R unit :=
  fun r tr => (Returned tt, r, (tr ++ [ev])%list).

Declare Scope meth_scope.
Delimit Scope meth_scope with meth.
Notation "x <- m ;; k" := (bind m (fun x => k))
  (at level 100, m at next level, right associativity) : meth_scope.
Notation "m ;;; k" := (bind m (fun _ => k))
  (at level 100, right associativity) : meth_scope.
Local Open Scope meth_scope.

(** [log.Printf] and [log.Print]. *)
Definition log_Printf {R} (format : string) (ops : list operand) : Meth R unit :=
  emit (Printf format ops).

Definition log_Print {R} (msg : string) : Meth R unit :=
  emit (Print msg).

(** ** Type assertions on decoded values *)

(** [v.(map[string]interface{})] *)
Definition assert_map {R} (v : json.value) : Meth R (gmap string json.value) :=
  match v with
  | json.VMap m => ret m
  | _ => panic {| concrete := json.typeof v; asserted := TMap |}
  end.

(** [m[key].(string)]: a key the map does not have reads as the nil
    interface. *)
Definition assert_string {R} (v : option json.value) : Meth R string :=
  match v with
  | Some (json.VString s) => ret s
  | Some v => panic {| concrete := json.typeof v; asserted := TString |}
  | None => panic {| concrete := TNil; asserted := TString |}
  end.

(** The messages of [ip]: each is both logged and made into the returned
    error, as it stands. *)
Definition msgInspect : string :=
  "error(%s) trying to inspect docker instance(%s) to get ipaddress".
Definition msgParse : string :=
  "error(%s) parsing json from docker when trying to get ipaddress".
Definition msgNetworkSettings : string :=
  "Error when getting container information. NetworkSettings is missing.".
Definition msgIpAddress : string :=
  "error: Can't get ipaddress...".

Section Driver.

Variable cfg : Config.
Variable exe : Executor.

(** ** runCmd *)

(** [runCmd] executes the command, then logs it, then returns the captured
    text and the executor's error. *)
Definition runCmd {R} (cmd : string) (args : list string)
  : Meth R (string * option error) :=
  emit (Executed cmd args) ;;;
  let '(out, err) := Execute exe cmd args in
  log_Printf "running the cmd: %s with the args: %s" [OStr cmd; OList args] ;;;
  ret (out, err).

(** ** container *)

Record container : Type := {
  name : string;
  id : string
}.

(** ip returns the ip for the container. *)
Definition ip : Meth container (string * option error) :=
  match GetString cfg "docker:binary" with
  | inr err => ret (EmptyString, Some err)
  | inl docker =>
      cid <- field id ;;
      log_Printf "Getting ipaddress to instance %s" [OStr cid] ;;;
      r <- runCmd docker ["inspect"; cid] ;;
      let '(instanceJson, err) := r in
      match err with
      | Some err =>
          log_Printf msgInspect [OErr err] ;;;
          ret (EmptyString, Some (errors_New msgInspect))
      | None =>
      match json.Unmarshal instanceJson with
      | inr err =>
          log_Printf msgParse [OErr err] ;;;
          ret (EmptyString, Some (errors_New msgParse))
      | inl result =>
      match result !! "NetworkSettings" with
      | None | Some json.VNil =>
          log_Printf msgNetworkSettings [] ;;;
          ret (EmptyString, Some (errors_New msgNetworkSettings))
      | Some ns =>
          networkSettings <- assert_map ns ;;
          instanceIp <- assert_string (networkSettings !! "IpAddress") ;;
          if String.eqb instanceIp EmptyString then
            log_Print msgIpAddress ;;;
            ret (EmptyString, Some (errors_New msgIpAddress))
          else
            log_Printf "Instance IpAddress: %s" [OStr instanceIp] ;;;
            ret (instanceIp, None)
      end end end
  end.

(** create creates a docker container with base template by default. *)
Definition create : Meth container (string * option error) :=
  match GetString cfg "docker:binary" with
  | inr err => ret (EmptyString, Some err)
  | inl docker =>
  match GetString cfg "docker:image" with
  | inr err => ret (EmptyString, Some err)
  | inl template =>
  match GetString cfg "docker:cmd:bin" with
  | inr err => ret (EmptyString, Some err)
  | inl cmd =>
  match GetList cfg "docker:cmd:args" with
  | inr err => ret (EmptyString, Some err)
  | inl args =>
      let args := (["run"; "-d"; template; cmd] ++ args)%list in
      r <- runCmd docker args ;;
      let '(id, err) := r in
      let id := strings_Replace id LF EmptyString in
      log_Printf "docker id=%s" [OStr id] ;;;
      ret (id, err)
  end end end end.

(** It is not necessary to start a docker container after docker run. *)
Definition start : Meth container (option error) :=
  ret None.

Definition stop : Meth container (option error) :=
  match GetString cfg "docker:binary" with
  | inr err => ret (Some err)
  | inl docker =>
      cid <- field id ;;
      log_Printf "trying to stop instance %s" [OStr cid] ;;;
      r <- runCmd docker ["stop"; cid] ;;
      let '(output, err) := r in
      log_Printf "docker stop=%s" [OStr output] ;;;
      ret err
  end.

Definition remove : Meth container (option error) :=
  match GetString cfg "docker:binary" with
  | inr err => ret (Some err)
  | inl docker =>
      cid <- field id ;;
      log_Printf "trying to remove container %s" [OStr cid] ;;;
      r <- runCmd docker ["rm"; cid] ;;
      let '(_, err) := r in
      ret err
  end.

(** ** image *)

Record image : Type := {
  img_name : string;
  img_id : string
}.

Definition repositoryName : Meth image string :=
  match GetString cfg "docker:repository-namespace" with
  | inr err =>
      log_Printf "Tsuru is misconfigured. docker:repository-namespace config is missing." [] ;;;
      ret EmptyString
  | inl registryUser =>
      nm <- field img_name ;;
      ret (Sprintf "%s/%s" [OStr registryUser; OStr nm])
  end.

Definition commit (cId : string) : Meth image (option error) :=
  match GetString cfg "docker:binary" with
  | inr err =>
      log_Printf "Tsuru is misconfigured. docker:binary config is missing." [] ;;;
      ret (Some err)
  | inl docker =>
      log_Printf "attempting to commit image from container %s" [OStr cId] ;;;
      rName <- repositoryName ;;
      r <- runCmd docker ["commit"; cId; rName] ;;
      let '(_, err) := r in
      match err with
      | Some e =>
          log_Printf "Could not commit docker image: %s" [OStr (Error e)] ;;;
          ret (Some e)
      | None => ret None
      end
  end.

End Driver.

(** ** Collaborators for concrete runs *)

(** A configuration held in a finite map: a key that is absent, or whose
    value has the other type, makes the lookup fail. *)
Inductive setting : Type :=
| SString (s : string)
| SList (l : list string).

Definition key_not_found (key : string) : error :=
  foreign ("key not found: " +:+ key).

Definition config_of (m : gmap string setting) : Config := {|
  GetString key :=
    match m !! key with
    | Some (SString s) => inl s
    | _ => inr (key_not_found key)
    end;
  GetList key :=
    match m !! key with
    | Some (SList l) => inl l
    | _ => inr (key_not_found key)
    end
|}.

(** An executor that answers every command with the same text and outcome. *)
Definition answering (out : string) (err : option error) : Executor :=
  {| Execute _ _ := (out, err) |}.

(** Writes a text with single quotes for the double quotes of JSON. *)
Definition quoted (s : string) : string :=
  strings_Replace s "'"%char (String "034"%char EmptyString).

Definition full_settings : gmap string setting :=
  <["docker:binary" := SString "docker"]>
  (<["docker:image" := SString "base"]>
  (<["docker:cmd:bin" := SString "/var/lib/tsuru/start"]>
  (<["docker:cmd:args" := SList ["8888"]]>
  (<["docker:repository-namespace" := SString "tsuru"]> ∅)))).

(** ** What a run produced *)

Definition outcome {R A} (x : result A * R * list event) : result A := x.1.1.
Definition receiver {R A} (x : result A * R * list event) : R := x.1.2.
Definition trace {R A} (x : result A * R * list event) : list event := x.2.

(** ** Notions used by the statements *)

(** Follows the spec's words for [create]: exactly one trailing newline is
    taken off, everything else stays. *)
Fixpoint strip_one_trailing_newline (s : string) : string :=
  match s with
  | EmptyString => EmptyString
  | String ch EmptyString => if Ascii.eqb ch LF then EmptyString else s
  | String ch rest => String ch (strip_one_trailing_newline rest)
  end.

Definition not_newline (ch : ascii) : bool := negb (Ascii.eqb ch LF).

(** The arguments of the run invocation of [create]. *)
Definition run_args (template cmd : string) (args : list string) : list string :=
  "run" :: "-d" :: template :: cmd :: args.

(** The line [runCmd] logs for an invocation. *)
Definition cmd_log (cmd : string) (args : list string) : event :=
  Printf "running the cmd: %s with the args: %s" [OStr cmd; OList args].

(** [a] occurs in the trace somewhere before [b]. *)
Definition precedes (a b : event) (tr : list event) : Prop :=
  exists l1 l2 l3, tr = (l1 ++ a :: l2 ++ b :: l3)%list.

(** Every execution in the trace is directly followed by its log line. *)
Fixpoint logged_after (tr : list event) : Prop :=
  match tr with
  | [] => True
  | Executed cmd args :: rest =>
      match rest with
      | ev :: rest' => ev = cmd_log cmd args /\ logged_after rest
      | [] => False
      end
  | _ :: rest => logged_after rest
  end.

(** The errors [ip] makes itself. *)
Definition errInspect : error := errors_New msgInspect.
Definition errParse : error := errors_New msgParse.
Definition errNetworkSettings : error := errors_New msgNetworkSettings.
Definition errIpAddress : error := errors_New msgIpAddress.

(** The spec's taxonomy of the errors of [ip]: an execution error says the
    inspect command did not run well, a parse error that its output is not
    JSON, a semantic-absence error that a field is missing, null or
    empty. *)
Definition execution_error (e : error) : Prop := e = errInspect.
Definition parse_error (e : error) : Prop := e = errParse.
Definition semantic_absence_error (e : error) : Prop :=
  e = errNetworkSettings \/ e = errIpAddress.

(** The shapes of a non-null NetworkSettings that [ip] does not expect:
    not an object, or an object whose IpAddress is absent or not a
    string. *)
Definition unexpected_shape (ns : json.value) : bool :=
  match ns with
  | json.VNil => false
  | json.VMap m =>
      match m !! "IpAddress" with
      | Some (json.VString _) => false
      | _ => true
      end
  | _ => true
  end.

(** The repository name [commit] passes on: the one [repositoryName]
    computes. *)
Definition repository_of (cfg : Config) (img : image) : string :=
  match GetString cfg "docker:repository-namespace" with
  | inl ns => ns +:+ "/" +:+ img_name img
  | inr _ => EmptyString
  end.

(** The operations that can report an error, and the lookups each makes
    itself, in program order. *)
Inductive operation : Type :=
| OpCreate | OpStop | OpRemove | OpIp | OpCommit (cId : string).

Inductive lookup : Type :=
| LString (key : string)
| LList (key : string).

Definition reads (op : operation) : list lookup :=
  match op with
  | OpCreate =>
      [LString "docker:binary"; LString "docker:image";
       LString "docker:cmd:bin"; LList "docker:cmd:args"]
  | _ => [LString "docker:binary"]
  end.

Definition fails (cfg : Config) (l : lookup) (e : error) : Prop :=
  match l with
  | LString key => GetString cfg key = inr e
  | LList key => GetList cfg key = inr e
  end.

(** The error position of a result and the trace, whatever the operation. *)
Definition reported (cfg : Config) (exe : Executor) (op : operation)
    (c : container) (img : image) (tr : list event)
  : result (option error) * list event :=
  match op with
  | OpCreate =>
      let x := create cfg exe c tr in
      (match outcome x with Returned r => Returned r.2 | Panicked p => Panicked p end,
       trace x)
  | OpStop => let x := stop cfg exe c tr in (outcome x, trace x)
  | OpRemove => let x := remove cfg exe c tr in (outcome x, trace x)
  | OpIp =>
      let x := ip cfg exe c tr in
      (match outcome x with Returned r => Returned r.2 | Panicked p => Panicked p end,
       trace x)
  | OpCommit cId => let x := commit cfg exe cId img tr in (outcome x, trace x)
  end.

(** ** Concrete runs *)

Definition newline : string := String LF EmptyString.

Definition fresh : container := {| name := "app"; id := EmptyString |}.
Definition created : container := {| name := "app"; id := "abc123" |}.
Definition base : image := {| img_name := "base"; img_id := EmptyString |}.

Definition exit1 : error := foreign "exit status 1".

(** The inspect outputs the spec enumerates. *)
Definition inspect_address : string :=
  quoted "{'NetworkSettings':{'IpAddress':'10.0.0.5'}}".
Definition inspect_null : string := quoted "{'NetworkSettings':null}".
Definition inspect_empty_address : string :=
  quoted "{'NetworkSettings':{'IpAddress':''}}".
Definition inspect_not_json : string := "not-json".

(** Well-formed objects of the shapes [ip] does not expect. *)
Definition inspect_number : string := quoted "{'NetworkSettings':5}".
Definition inspect_no_address : string := quoted "{'NetworkSettings':{}}".
Definition inspect_number_address : string :=
  quoted "{'NetworkSettings':{'IpAddress':7}}".

(** ** The process-wide filesystem handle *)

Section Filesystem.

(** [fs.Fs], the interface, and [fs.OsFs{}], the value that works on the
    real filesystem; both belong to package fs. *)
Variable Fs : Type.
Variable OsFs : Fs.

(** [filesystem()] on the package variable [fsystem], [None] being the nil
    interface: the handle and the variable afterwards. *)
Definition filesystem (fsystem : option Fs) : Fs * option Fs :=
  match fsystem with
  | None => (OsFs, Some OsFs)
  | Some f => (f, Some f)
  end.

End Filesystem.

(** ** Further notions used by the statements *)

(** The bytes a JSON value can begin with. *)
Definition begins_value (c : ascii) : bool :=
  match c with
  | "{" | "[" | "034" | "-" | "t" | "f" | "n"
  | "0" | "1" | "2" | "3" | "4" | "5" | "6" | "7" | "8" | "9" => true
  | _ => false
  end%char.

(** The state in which the decoder starts on a text. *)
Definition scanner_start : json.state :=
  {| json.step := json.stateBeginValue; json.parseState := [];
     json.savedError := None |}.

(** An inspect output that is an array holding the object, not the object
    itself. *)
Definition inspect_array : string :=
  quoted "[{'NetworkSettings':{'IpAddress':'10.0.0.5'}}]".

(** * Properties *)

(** ** Shared lemmas *)

Ltac run_meth :=
  unfold outcome, receiver, trace, create, ip, stop, remove, start, commit,
    repositoryName, runCmd, assert_map, assert_string, log_Printf, log_Print,
    bind, ret, emit, field, panic;
  cbn [fst snd].

Lemma strings_Replace_filter (s : string) :
  list_ascii_of_string (strings_Replace s LF EmptyString)
  = List.filter not_newline (list_ascii_of_string s).
Proof.
  induction s as [|ch s IH]; [reflexivity|].
  cbn [strings_Replace list_ascii_of_string List.filter].
  unfold not_newline at 1.
  destruct (Ascii.eqb ch LF); cbn; [exact IH | now rewrite IH].
Qed.

Lemma strings_Replace_no_newline (s : string) :
  ~ In LF (list_ascii_of_string (strings_Replace s LF EmptyString)).
Proof.
  rewrite strings_Replace_filter. intros H.
  apply filter_In in H as [_ H]. unfold not_newline in H.
  now rewrite Ascii.eqb_refl in H.
Qed.

Lemma strings_Replace_id (s : string) :
  ~ In LF (list_ascii_of_string s) -> strings_Replace s LF EmptyString = s.
Proof.
  induction s as [|ch s IH]; [reflexivity|].
  cbn [strings_Replace list_ascii_of_string]. intros H.
  destruct (Ascii.eqb_spec ch LF) as [->|_].
  - exfalso. apply H. now left.
  - f_equal. apply IH. intros Hin. apply H. now right.
Qed.

Lemma strings_Replace_app (s t : string) :
  strings_Replace (s +:+ t) LF EmptyString
  = strings_Replace s LF EmptyString +:+ strings_Replace t LF EmptyString.
Proof.
  induction s as [|ch s IH]; [reflexivity|].
  simpl. rewrite IH. now destruct (Ascii.eqb ch LF).
Qed.

Lemma append_empty_r (s : string) : s +:+ EmptyString = s.
Proof.
  induction s as [|ch s IH]; [reflexivity|].
  change (String ch (s +:+ EmptyString) = String ch s). now rewrite IH.
Qed.

(** [create] once its four lookups have succeeded. *)
Lemma create_runs cfg exe c tr docker template cmd args :
  GetString cfg "docker:binary" = inl docker ->
  GetString cfg "docker:image" = inl template ->
  GetString cfg "docker:cmd:bin" = inl cmd ->
  GetList cfg "docker:cmd:args" = inl args ->
  create cfg exe c tr
  = let r := Execute exe docker (run_args template cmd args) in
    let id := strings_Replace r.1 LF EmptyString in
    (Returned (id, r.2), c,
     (tr ++ [Executed docker (run_args template cmd args);
             cmd_log docker (run_args template cmd args);
             Printf "docker id=%s" [OStr id]])%list).
Proof.
  intros H1 H2 H3 H4. unfold create. rewrite H1, H2, H3, H4.
  run_meth. unfold run_args, cmd_log. cbn [app].
  destruct (Execute exe docker _) as [out err]. cbn [fst snd].
  now rewrite <- !app_assoc.
Qed.

(** ** create: the identifier *)

(** C1, as stated, fails: when the captured output has a newline that is
    not the last byte, [create] does not return the output less its one
    trailing newline.  For the output [a\nb\n] it returns [ab]. *)
Lemma create_strips_one_newline_counterexample :
  let out := "a" +:+ newline +:+ "b" +:+ newline in
  outcome (create (config_of full_settings) (answering out None) fresh [])
  <> Returned (strip_one_trailing_newline out, None).
Proof. vm_compute. discriminate. Qed.

(** C1, amended: for every captured output, [create] removes every newline
    of the output, wherever it stands, and changes nothing else: the
    identifier is the output's bytes that are not newlines, in order.  An
    output that is newline-free up to one trailing newline loses just that
    newline. *)
Theorem create_removes_every_newline cfg exe c tr docker template cmd args :
  GetString cfg "docker:binary" = inl docker ->
  GetString cfg "docker:image" = inl template ->
  GetString cfg "docker:cmd:bin" = inl cmd ->
  GetList cfg "docker:cmd:args" = inl args ->
  let r := Execute exe docker (run_args template cmd args) in
  exists id,
    outcome (create cfg exe c tr) = Returned (id, r.2)
    /\ list_ascii_of_string id = List.filter not_newline (list_ascii_of_string r.1)
    /\ ~ In LF (list_ascii_of_string id)
    /\ (forall s, ~ In LF (list_ascii_of_string s) -> r.1 = s +:+ newline -> id = s).
Proof.
  intros H1 H2 H3 H4 r.
  exists (strings_Replace r.1 LF EmptyString).
  rewrite (create_runs _ _ _ _ _ _ _ _ H1 H2 H3 H4). fold r.
  split; [reflexivity|]. split; [apply strings_Replace_filter|].
  split; [apply strings_Replace_no_newline|].
  intros s Hs ->. rewrite strings_Replace_app, (strings_Replace_id s Hs).
  change (strings_Replace newline LF EmptyString) with EmptyString.
  apply append_empty_r.
Qed.

(** The output [abc123\n] gives the identifier [abc123]. *)
Lemma create_removes_every_newline_witness :
  exists id,
    outcome (create (config_of full_settings) (answering ("abc123" +:+ newline) None)
               fresh [])
    = Returned (id, None)
    /\ id = "abc123".
Proof.
  destruct (create_removes_every_newline (config_of full_settings)
              (answering ("abc123" +:+ newline) None) fresh []
              "docker" "base" "/var/lib/tsuru/start" ["8888"]
              eq_refl eq_refl eq_refl eq_refl) as (id & Hrun & _ & _ & Hstrip).
  exists id. split; [exact Hrun|].
  apply Hstrip; [|reflexivity].
  cbn. intros H. repeat (destruct H as [H|H]; [discriminate H|]). exact H.
Defined.

(** C10: when the run invocation fails, [create] returns the captured
    output, its newlines removed, in the identifier position together with
    the invoker's error; the string is not empty as soon as the output has
    a byte that is not a newline. *)
Theorem create_returns_output_with_error cfg exe c tr docker template cmd args out e :
  GetString cfg "docker:binary" = inl docker ->
  GetString cfg "docker:image" = inl template ->
  GetString cfg "docker:cmd:bin" = inl cmd ->
  GetList cfg "docker:cmd:args" = inl args ->
  Execute exe docker (run_args template cmd args) = (out, Some e) ->
  outcome (create cfg exe c tr)
  = Returned (strings_Replace out LF EmptyString, Some e)
  /\ (forall ch, In ch (list_ascii_of_string out) -> ch <> LF ->
      strings_Replace out LF EmptyString <> EmptyString).
Proof.
  intros H1 H2 H3 H4 Hx.
  rewrite (create_runs _ _ _ _ _ _ _ _ H1 H2 H3 H4), Hx. split; [reflexivity|].
  intros ch Hin Hch Hempty.
  assert (Hf : In ch (List.filter not_newline (list_ascii_of_string out))).
  { apply filter_In. split; [exact Hin|]. unfold not_newline.
    now destruct (Ascii.eqb_spec ch LF). }
  rewrite <- strings_Replace_filter, Hempty in Hf. exact Hf.
Qed.

(** A failing run whose output is a diagnostic: the caller gets the
    diagnostic, not an empty identifier. *)
Lemma create_returns_output_with_error_witness :
  outcome (create (config_of full_settings)
             (answering ("no such image" +:+ newline) (Some exit1)) fresh [])
  = Returned ("no such image", Some exit1)
  /\ "no such image" <> EmptyString.
Proof.
  split; [|discriminate].
  exact (proj1 (create_returns_output_with_error (config_of full_settings)
                  (answering ("no such image" +:+ newline) (Some exit1)) fresh []
                  "docker" "base" "/var/lib/tsuru/start" ["8888"]
                  ("no such image" +:+ newline) exit1
                  eq_refl eq_refl eq_refl eq_refl eq_refl)).
Defined.

(** ** The id field of a container *)

(** Case analysis along the control flow: the lookups, the invocation, the
    decoding, then whatever is still matched on. *)
Ltac split_step :=
  match goal with
  | |- context [GetString ?c ?k] => destruct (GetString c k) eqn:?
  | |- context [GetList ?c ?k] => destruct (GetList c k) eqn:?
  | |- context [Execute ?e ?c ?a] => destruct (Execute e c a) as [? [?|]] eqn:?
  | |- context [json.Unmarshal ?s] => destruct (json.Unmarshal s) eqn:?
  | |- context [?m !! ?k] => destruct (m !! k) eqn:?
  | |- context [match ?x with _ => _ end] => is_var x; destruct x
  | |- context [match ?x with _ => _ end] => destruct x eqn:?
  end; cbn [fst snd].

Ltac split_matches := repeat split_step.

(** C6, as stated, fails: after a successful [create] that returned the
    runtime's identifier [abc123], the id field of the container is still
    empty. *)
Lemma create_populates_id_counterexample :
  let x := create (config_of full_settings) (answering ("abc123" +:+ newline) None)
             fresh [] in
  outcome x = Returned ("abc123", None) /\ id (receiver x) <> "abc123".
Proof. vm_compute. split; [reflexivity | discriminate]. Qed.

(** C6, amended: [create] hands the runtime-assigned identifier (the output
    of its one run invocation, newlines removed) to its caller as its
    result, never panics, and leaves the id field as it was; no operation
    of the container (create, start, stop, remove, ip) modifies the id
    field, so a container constructed with a name only keeps an empty
    id. *)
Theorem operations_keep_id cfg exe c tr :
  (forall docker template cmd args,
     GetString cfg "docker:binary" = inl docker ->
     GetString cfg "docker:image" = inl template ->
     GetString cfg "docker:cmd:bin" = inl cmd ->
     GetList cfg "docker:cmd:args" = inl args ->
     let r := Execute exe docker (run_args template cmd args) in
     outcome (create cfg exe c tr)
     = Returned (strings_Replace r.1 LF EmptyString, r.2)
     /\ executions (trace (create cfg exe c tr))
        = (executions tr ++ [Executed docker (run_args template cmd args)])%list)
  /\ (exists r, outcome (create cfg exe c tr) = Returned r)
  /\ receiver (create cfg exe c tr) = c
  /\ receiver (start c tr) = c
  /\ receiver (stop cfg exe c tr) = c
  /\ receiver (remove cfg exe c tr) = c
  /\ receiver (ip cfg exe c tr) = c.
Proof.
  split.
  { intros docker template cmd args H1 H2 H3 H4 r.
    rewrite (create_runs _ _ _ _ _ _ _ _ H1 H2 H3 H4). fold r.
    split; [reflexivity|]. unfold trace, executions. cbn [snd].
    rewrite List.filter_app. reflexivity. }
  repeat split.
  - run_meth. split_matches; eexists; reflexivity.
  - run_meth. now split_matches.
  - run_meth. now split_matches.
  - run_meth. now split_matches.
  - run_meth. now split_matches.
Qed.

(** A fresh container whose run printed [abc123]: [create] returns
    [abc123], and the id field is still empty. *)
Lemma operations_keep_id_witness :
  let x := create (config_of full_settings) (answering ("abc123" +:+ newline) None)
             fresh [] in
  outcome x = Returned ("abc123", None)
  /\ executions (trace x)
     = [Executed "docker" ["run"; "-d"; "base"; "/var/lib/tsuru/start"; "8888"]]
  /\ id (receiver x) = EmptyString.
Proof.
  intros x.
  destruct (operations_keep_id (config_of full_settings)
              (answering ("abc123" +:+ newline) None) fresh [])
    as (Hid & _ & Hframe & _).
  destruct (Hid "docker" "base" "/var/lib/tsuru/start" ["8888"]
              eq_refl eq_refl eq_refl eq_refl) as [Hout Hexe].
  split; [exact Hout|]. split; [exact Hexe|].
  subst x. now rewrite Hframe.
Defined.

(** ** repositoryName and commit *)

Lemma Sprintf_repository (ns nm : string) :
  Sprintf "%s/%s" [OStr ns; OStr nm] = ns +:+ "/" +:+ nm.
Proof.
  cbn [Sprintf verb_s]. rewrite append_empty_r. reflexivity.
Qed.

Lemma repositoryName_runs cfg img tr :
  outcome (repositoryName cfg img tr) = Returned (repository_of cfg img)
  /\ receiver (repositoryName cfg img tr) = img
  /\ executions (trace (repositoryName cfg img tr)) = executions tr.
Proof.
  unfold repository_of. run_meth.
  destruct (GetString cfg "docker:repository-namespace") as [ns|e]; cbn [fst snd].
  - now rewrite Sprintf_repository.
  - repeat split. unfold executions. rewrite List.filter_app. cbn. apply app_nil_r.
Qed.

(** C7: [repositoryName] returns namespace, slash, image name, from the
    configuration it is called with: [tsuru/base] for the namespace [tsuru]
    and the image name [base]; when the lookup of the namespace fails it
    returns the empty string, and its result has no error position to
    signal anything. *)
Theorem repositoryName_value cfg img tr :
  (forall ns, GetString cfg "docker:repository-namespace" = inl ns ->
     repositoryName cfg img tr = (Returned (ns +:+ "/" +:+ img_name img), img, tr))
  /\ (GetString cfg "docker:repository-namespace" = inl "tsuru" ->
      img_name img = "base" ->
      outcome (repositoryName cfg img tr) = Returned "tsuru/base")
  /\ (forall e, GetString cfg "docker:repository-namespace" = inr e ->
      outcome (repositoryName cfg img tr) = Returned EmptyString).
Proof.
  split; [|split].
  - intros ns H. run_meth. rewrite H. now rewrite Sprintf_repository.
  - intros H Hn. run_meth. rewrite H, Hn. reflexivity.
  - intros e H. run_meth. now rewrite H.
Qed.

(** With the namespace [tsuru] the image [base] is [tsuru/base]; with no
    namespace configured its repository name is empty. *)
Lemma repositoryName_value_witness :
  repositoryName (config_of full_settings) base []
  = (Returned "tsuru/base", base, [])
  /\ outcome (repositoryName (config_of full_settings) base []) = Returned "tsuru/base"
  /\ outcome (repositoryName
                (config_of (delete "docker:repository-namespace" full_settings))
                base [])
     = Returned EmptyString.
Proof.
  split; [|split].
  - exact (proj1 (repositoryName_value (config_of full_settings) base [])
             "tsuru" eq_refl).
  - exact (proj1 (proj2 (repositoryName_value (config_of full_settings) base []))
             eq_refl eq_refl).
  - exact (proj2 (proj2 (repositoryName_value
                           (config_of (delete "docker:repository-namespace"
                                         full_settings)) base []))
             (key_not_found "docker:repository-namespace") eq_refl).
Defined.

(** C8, as stated, fails: when the commit invocation fails, [commit]
    returns the very error the invoker returned, not an error of its
    own. *)
Lemma commit_own_error_counterexample :
  let exe := answering "no such container" (Some exit1) in
  (Execute exe "docker" ["commit"; "abc123"; "tsuru/base"]).2 = Some exit1
  /\ outcome (commit (config_of full_settings) exe "abc123" base [])
     = Returned (Some exit1).
Proof. vm_compute. split; reflexivity. Qed.

(** C8, amended: for every container id, [commit] invokes the runtime once,
    with the subcommand [commit] followed by exactly two arguments, the
    container id and then the repository name [repositoryName] computes, and
    returns the error of that invocation unchanged, after logging it: when
    the invocation fails, the last line logged says that the image could
    not be committed and carries the text of the error; when it succeeds,
    nothing is logged after the line of the invocation. *)
Theorem commit_invocation cfg exe img cId tr docker :
  GetString cfg "docker:binary" = inl docker ->
  exists rName,
    outcome (repositoryName cfg img tr) = Returned rName
    /\ outcome (commit cfg exe cId img tr)
       = Returned (Execute exe docker ["commit"; cId; rName]).2
    /\ executions (trace (commit cfg exe cId img tr))
       = (executions tr ++ [Executed docker ["commit"; cId; rName]])%list
    /\ last (trace (commit cfg exe cId img tr))
       = Some match (Execute exe docker ["commit"; cId; rName]).2 with
              | Some e => Printf "Could not commit docker image: %s" [OStr (Error e)]
              | None => cmd_log docker ["commit"; cId; rName]
              end.
Proof.
  intros H. exists (repository_of cfg img).
  split; [apply repositoryName_runs|].
  unfold repository_of. run_meth. rewrite H. cbn [fst snd].
  destruct (GetString cfg "docker:repository-namespace") as [ns|e]; cbn [fst snd];
    rewrite ?Sprintf_repository;
    destruct (Execute exe docker _) as [out [err|]]; cbn [fst snd];
    (split; [reflexivity|]);
    (split; [unfold executions; rewrite !List.filter_app; cbn;
             now rewrite ?app_nil_r | apply last_snoc]).
Qed.

Lemma commit_invocation_witness :
  exists rName,
    outcome (repositoryName (config_of full_settings) base []) = Returned rName
    /\ outcome (commit (config_of full_settings) (answering "sha" None) "abc123" base [])
       = Returned (Execute (answering "sha" None) "docker" ["commit"; "abc123"; rName]).2
    /\ executions (trace (commit (config_of full_settings) (answering "sha" None)
                            "abc123" base []))
       = (executions [] ++ [Executed "docker" ["commit"; "abc123"; rName]])%list
    /\ last (trace (commit (config_of full_settings) (answering "sha" None)
                      "abc123" base []))
       = Some match (Execute (answering "sha" None) "docker"
                       ["commit"; "abc123"; rName]).2 with
              | Some e => Printf "Could not commit docker image: %s" [OStr (Error e)]
              | None => cmd_log "docker" ["commit"; "abc123"; rName]
              end.
Proof.
  exact (commit_invocation (config_of full_settings) (answering "sha" None) base
           "abc123" [] "docker" eq_refl).
Defined.

(** ** runCmd: the order of execution and log *)

Lemma logged_after_app (a b : list event) :
  logged_after a -> logged_after b -> logged_after (a ++ b).
Proof.
  induction a as [|ev a IH]; [easy|].
  destruct ev as [f ops | msg | cmd args]; cbn [logged_after app]; auto.
  destruct a as [|ev' a']; [easy|].
  intros [Heq Hrest] Hb. split; [exact Heq|]. now apply IH.
Qed.

Lemma runCmd_runs {R} exe cmd args (r : R) tr :
  runCmd exe cmd args r tr
  = (Returned (Execute exe cmd args), r,
     (tr ++ [Executed cmd args; cmd_log cmd args])%list).
Proof.
  run_meth. destruct (Execute exe cmd args) as [out err].
  now rewrite <- app_assoc.
Qed.

(** C9, as stated, fails: in the trace of [stop] the line that logs the
    command and its arguments does not come before the execution. *)
Lemma log_before_execution_counterexample :
  ~ precedes (cmd_log "docker" ["stop"; "abc123"])
             (Executed "docker" ["stop"; "abc123"])
             (trace (stop (config_of full_settings) (answering "abc123" None)
                       created [])).
Proof.
  intros (l1 & l2 & l3 & H).
  change (trace (stop (config_of full_settings) (answering "abc123" None) created []))
    with [Printf "trying to stop instance %s" [OStr "abc123"];
          Executed "docker" ["stop"; "abc123"];
          cmd_log "docker" ["stop"; "abc123"];
          Printf "docker stop=%s" [OStr "abc123"]] in H.
  destruct l1 as [|x1 [|x2 [|x3 [|x4 [|x5 l1]]]]]; cbn in H;
    try discriminate H.
  injection H as _ _ H.
  destruct l2 as [|y1 [|y2 l2]]; cbn in H; discriminate H.
Qed.

(** C9, amended: for every external invocation performed by the core, the
    line that logs the command and its arguments is emitted directly after
    the external process has been executed and before [runCmd] returns: in
    the trace of every operation each execution event is immediately
    followed by its log line. *)
Theorem execution_logged_afterwards cfg exe op c img tr cmd args :
  logged_after tr ->
  trace (runCmd exe cmd args c tr)
  = (tr ++ [Executed cmd args; cmd_log cmd args])%list
  /\ logged_after (reported cfg exe op c img tr).2.
Proof.
  intros H. split; [now rewrite runCmd_runs|].
  destruct op; unfold reported; run_meth; split_matches;
    rewrite <- ?app_assoc; cbn [app];
    try exact H;
    (apply logged_after_app; [exact H|]); unfold cmd_log; cbn; auto.
Qed.

Lemma execution_logged_afterwards_witness :
  trace (runCmd (answering "abc123" None) "docker" ["stop"; "abc123"] created [])
  = [Executed "docker" ["stop"; "abc123"]; cmd_log "docker" ["stop"; "abc123"]]
  /\ logged_after (reported (config_of full_settings) (answering "abc123" None)
                     OpStop created base []).2.
Proof.
  exact (execution_logged_afterwards (config_of full_settings)
           (answering "abc123" None) OpStop created base []
           "docker" ["stop"; "abc123"] I).
Defined.

(** ** Missing configuration *)

Lemma executions_app (a b : list event) :
  executions (a ++ b) = (executions a ++ executions b)%list.
Proof. apply List.filter_app. Qed.

(** C3, as stated, fails: with no repository namespace configured,
    [commit], which reads that key through [repositoryName], reports no
    configuration error and invokes the runtime. *)
Lemma commit_missing_namespace_counterexample :
  let cfg := config_of (delete "docker:repository-namespace" full_settings) in
  let x := commit cfg (answering "sha" None) "abc123" base [] in
  GetString cfg "docker:repository-namespace"
  = inr (key_not_found "docker:repository-namespace")
  /\ outcome x = Returned None
  /\ executions (trace x) = [Executed "docker" ["commit"; "abc123"; EmptyString]]
  /\ ~ (exists e, outcome x = Returned (Some e) /\ executions (trace x) = []).
Proof.
  vm_compute. repeat split. intros (e & H & _). discriminate H.
Qed.

Ltac config_failure l :=
  solve [ exists l; eexists; split; [cbn; tauto|];
          split; [cbn; eassumption|];
          split; [reflexivity|];
          rewrite ?executions_app; cbn; now rewrite ?app_nil_r ].

(** C3, amended: when a lookup that create, stop, remove, ip or commit
    makes itself fails (docker:binary for all of them; docker:image,
    docker:cmd:bin and docker:cmd:args for create), the operation returns
    the error of a failed lookup of its own and performs no external
    invocation.  [repositoryName] never invokes anything either, but it
    reports no error: with no namespace configured it returns the empty
    string. *)
Theorem config_error_before_invocation cfg exe op c img tr :
  (forall l e,
     In l (reads op) ->
     fails cfg l e ->
     exists l' e',
       In l' (reads op) /\ fails cfg l' e'
       /\ (reported cfg exe op c img tr).1 = Returned (Some e')
       /\ executions (reported cfg exe op c img tr).2 = executions tr)
  /\ executions (trace (repositoryName cfg img tr)) = executions tr
  /\ (forall e2, GetString cfg "docker:repository-namespace" = inr e2 ->
      outcome (repositoryName cfg img tr) = Returned EmptyString).
Proof.
  split; [|split].
  - intros l e Hin Hf. destruct op; cbn [reads] in Hin;
      repeat (destruct Hin as [<-|Hin]; [|]); try contradiction;
      cbn [fails] in Hf; unfold reported; run_meth.
    all: repeat match goal with
         | |- context [GetString ?c ?k] => destruct (GetString c k) eqn:?
         | |- context [GetList ?c ?k] => destruct (GetList c k) eqn:?
         end; cbn [fst snd]; try congruence.
    all: first [ config_failure (LString "docker:binary")
               | config_failure (LString "docker:image")
               | config_failure (LString "docker:cmd:bin")
               | config_failure (LList "docker:cmd:args") ].
  - apply repositoryName_runs.
  - intros e2 H. run_meth. now rewrite H.
Qed.

(** With docker:cmd:args missing [create] stops at that lookup; with no
    namespace [repositoryName] answers the empty string. *)
Lemma config_error_before_invocation_witness :
  let cfg := config_of (delete "docker:cmd:args"
                          (delete "docker:repository-namespace" full_settings)) in
  (exists l' e',
     In l' (reads OpCreate) /\ fails cfg l' e'
     /\ (reported cfg (answering "abc123" None) OpCreate fresh base []).1
        = Returned (Some e')
     /\ executions (reported cfg (answering "abc123" None) OpCreate fresh base []).2
        = executions [])
  /\ outcome (repositoryName cfg base []) = Returned EmptyString.
Proof.
  intros cfg.
  destruct (config_error_before_invocation cfg (answering "abc123" None) OpCreate
              fresh base [])
    as (Hop & _ & Hname).
  split.
  - exact (Hop (LList "docker:cmd:args") (key_not_found "docker:cmd:args")
             (or_intror (or_intror (or_intror (or_introl eq_refl)))) eq_refl).
  - exact (Hname (key_not_found "docker:repository-namespace") eq_refl).
Defined.

(** ** ip *)

Lemma ip_config_fails cfg exe c tr e :
  GetString cfg "docker:binary" = inr e ->
  ip cfg exe c tr = (Returned (EmptyString, Some e), c, tr).
Proof. intros H. unfold ip. now rewrite H. Qed.

Lemma ip_inspect_fails cfg exe c tr docker out e :
  GetString cfg "docker:binary" = inl docker ->
  Execute exe docker ["inspect"; id c] = (out, Some e) ->
  outcome (ip cfg exe c tr) = Returned (EmptyString, Some errInspect).
Proof. intros H1 H2. run_meth. rewrite H1. cbn [fst snd]. now rewrite H2. Qed.

Lemma ip_parse_fails cfg exe c tr docker out e :
  GetString cfg "docker:binary" = inl docker ->
  Execute exe docker ["inspect"; id c] = (out, None) ->
  json.Unmarshal out = inr e ->
  outcome (ip cfg exe c tr) = Returned (EmptyString, Some errParse).
Proof.
  intros H1 H2 H3. run_meth. rewrite H1. cbn [fst snd]. rewrite H2.
  cbn [fst snd]. now rewrite H3.
Qed.

Lemma ip_no_network_settings cfg exe c tr docker out result :
  GetString cfg "docker:binary" = inl docker ->
  Execute exe docker ["inspect"; id c] = (out, None) ->
  json.Unmarshal out = inl result ->
  result !! "NetworkSettings" = None \/ result !! "NetworkSettings" = Some json.VNil ->
  outcome (ip cfg exe c tr) = Returned (EmptyString, Some errNetworkSettings).
Proof.
  intros H1 H2 H3 H4. run_meth. rewrite H1. cbn [fst snd]. rewrite H2.
  cbn [fst snd]. rewrite H3. now destruct H4 as [-> | ->].
Qed.

Lemma ip_address cfg exe c tr docker out result ns addr :
  GetString cfg "docker:binary" = inl docker ->
  Execute exe docker ["inspect"; id c] = (out, None) ->
  json.Unmarshal out = inl result ->
  result !! "NetworkSettings" = Some (json.VMap ns) ->
  ns !! "IpAddress" = Some (json.VString addr) ->
  outcome (ip cfg exe c tr)
  = if String.eqb addr EmptyString
    then Returned (EmptyString, Some errIpAddress)
    else Returned (addr, None).
Proof.
  intros H1 H2 H3 H4 H5. run_meth. rewrite H1. cbn [fst snd]. rewrite H2.
  cbn [fst snd]. rewrite H3, H4. cbn [fst snd]. rewrite H5. cbn [fst snd].
  now destruct (String.eqb addr EmptyString).
Qed.

Lemma ip_panics cfg exe c tr docker out result ns :
  GetString cfg "docker:binary" = inl docker ->
  Execute exe docker ["inspect"; id c] = (out, None) ->
  json.Unmarshal out = inl result ->
  result !! "NetworkSettings" = Some ns ->
  unexpected_shape ns = true ->
  outcome (ip cfg exe c tr)
  = Panicked
      match ns with
      | json.VMap m =>
          {| concrete := match m !! "IpAddress" with
                         | Some v => json.typeof v
                         | None => TNil
                         end;
             asserted := TString |}
      | _ => {| concrete := json.typeof ns; asserted := TMap |}
      end.
Proof.
  intros H1 H2 H3 H4 H5. run_meth. rewrite H1. cbn [fst snd]. rewrite H2.
  cbn [fst snd]. rewrite H3, H4.
  destruct ns as [| b | lit | s | l | m]; try discriminate H5; try reflexivity.
  cbn [fst snd unexpected_shape] in *.
  destruct (m !! "IpAddress") as [[| b | lit | s | l | m']|];
    try discriminate H5; reflexivity.
Qed.

Lemma ip_errors_distinct :
  List.NoDup [errInspect; errParse; errNetworkSettings; errIpAddress].
Proof.
  repeat (apply List.NoDup_cons; [cbn; intros H;
    repeat (destruct H as [H|H]; [discriminate H|]); exact H|]).
  apply List.NoDup_nil.
Qed.

(** What the decoder makes of the outputs used below. *)
Lemma decode_inspect_address :
  exists result ns,
    json.Unmarshal inspect_address = inl result
    /\ result !! "NetworkSettings" = Some (json.VMap ns)
    /\ ns !! "IpAddress" = Some (json.VString "10.0.0.5").
Proof.
  eexists _, _. split; [vm_compute; reflexivity|].
  split; vm_compute; reflexivity.
Qed.

Lemma decode_inspect_null :
  exists result,
    json.Unmarshal inspect_null = inl result
    /\ result !! "NetworkSettings" = Some json.VNil.
Proof. eexists. split; vm_compute; reflexivity. Qed.

Lemma decode_inspect_empty_address :
  exists result ns,
    json.Unmarshal inspect_empty_address = inl result
    /\ result !! "NetworkSettings" = Some (json.VMap ns)
    /\ ns !! "IpAddress" = Some (json.VString EmptyString).
Proof.
  eexists _, _. split; [vm_compute; reflexivity|].
  split; vm_compute; reflexivity.
Qed.

Lemma decode_inspect_not_json :
  exists e, json.Unmarshal inspect_not_json = inr e.
Proof. eexists. vm_compute. reflexivity. Qed.

(** C2: on the inspect outputs the spec enumerates, [ip] returns the
    address 10.0.0.5 and no error for the object that carries it, a
    semantic-absence error for a null NetworkSettings and for an empty
    IpAddress, and for the text not-json a parse error, which is not the
    execution error. *)
Theorem ip_on_inspect_outputs cfg exe1 exe2 exe3 exe4 c tr docker :
  GetString cfg "docker:binary" = inl docker ->
  Execute exe1 docker ["inspect"; id c] = (inspect_address, None) ->
  Execute exe2 docker ["inspect"; id c] = (inspect_null, None) ->
  Execute exe3 docker ["inspect"; id c] = (inspect_empty_address, None) ->
  Execute exe4 docker ["inspect"; id c] = (inspect_not_json, None) ->
  outcome (ip cfg exe1 c tr) = Returned ("10.0.0.5", None)
  /\ (exists e, outcome (ip cfg exe2 c tr) = Returned (EmptyString, Some e)
                /\ semantic_absence_error e)
  /\ (exists e, outcome (ip cfg exe3 c tr) = Returned (EmptyString, Some e)
                /\ semantic_absence_error e)
  /\ (exists e, outcome (ip cfg exe4 c tr) = Returned (EmptyString, Some e)
                /\ parse_error e /\ ~ execution_error e).
Proof.
  intros Hcfg H1 H2 H3 H4. repeat split.
  - destruct decode_inspect_address as (result & ns & Hd & Hns & Hip).
    now rewrite (ip_address _ _ _ _ _ _ _ _ _ Hcfg H1 Hd Hns Hip).
  - destruct decode_inspect_null as (result & Hd & Hns).
    exists errNetworkSettings. split; [|now left].
    exact (ip_no_network_settings _ _ _ _ _ _ _ Hcfg H2 Hd (or_intror Hns)).
  - destruct decode_inspect_empty_address as (result & ns & Hd & Hns & Hip).
    exists errIpAddress. split; [|now right].
    now rewrite (ip_address _ _ _ _ _ _ _ _ _ Hcfg H3 Hd Hns Hip).
  - destruct decode_inspect_not_json as (e & Hd).
    exists errParse. split; [exact (ip_parse_fails _ _ _ _ _ _ _ Hcfg H4 Hd)|].
    split; [reflexivity | discriminate].
Qed.

Lemma ip_on_inspect_outputs_witness :
  let cfg := config_of full_settings in
  outcome (ip cfg (answering inspect_address None) created [])
  = Returned ("10.0.0.5", None)
  /\ (exists e, outcome (ip cfg (answering inspect_null None) created [])
                = Returned (EmptyString, Some e)
                /\ semantic_absence_error e)
  /\ (exists e, outcome (ip cfg (answering inspect_empty_address None) created [])
                = Returned (EmptyString, Some e)
                /\ semantic_absence_error e)
  /\ (exists e, outcome (ip cfg (answering inspect_not_json None) created [])
                = Returned (EmptyString, Some e)
                /\ parse_error e /\ ~ execution_error e).
Proof.
  exact (ip_on_inspect_outputs (config_of full_settings)
           (answering inspect_address None) (answering inspect_null None)
           (answering inspect_empty_address None) (answering inspect_not_json None)
           created [] "docker" eq_refl eq_refl eq_refl eq_refl eq_refl).
Defined.

(** C4, as stated, fails at (a): when the lookup of the binary path fails,
    [ip] returns the very error the lookup returned. *)
Lemma ip_config_error_counterexample :
  let cfg := config_of (delete "docker:binary" full_settings) in
  GetString cfg "docker:binary" = inr (key_not_found "docker:binary")
  /\ outcome (ip cfg (answering inspect_address None) created [])
     = Returned (EmptyString, Some (key_not_found "docker:binary")).
Proof. vm_compute. split; reflexivity. Qed.

(** C4, amended: of the five failure modes of [ip], (b) a failed inspect
    invocation, (c) a text that is not valid JSON, (d) a NetworkSettings
    field that is absent or null and (e) an empty address each produce an
    error [ip] makes itself, the same whatever the underlying error, and
    the four are pairwise distinct; (a) a failed lookup of the binary path
    passes the lookup's error on unchanged.  Whenever [ip] returns an
    error, the string beside it is empty. *)
Theorem ip_failure_modes cfg exe c tr :
  (forall e, GetString cfg "docker:binary" = inr e ->
     ip cfg exe c tr = (Returned (EmptyString, Some e), c, tr))
  /\ (forall docker out e,
        GetString cfg "docker:binary" = inl docker ->
        Execute exe docker ["inspect"; id c] = (out, Some e) ->
        outcome (ip cfg exe c tr) = Returned (EmptyString, Some errInspect))
  /\ (forall docker out e,
        GetString cfg "docker:binary" = inl docker ->
        Execute exe docker ["inspect"; id c] = (out, None) ->
        json.Unmarshal out = inr e ->
        outcome (ip cfg exe c tr) = Returned (EmptyString, Some errParse))
  /\ (forall docker out result,
        GetString cfg "docker:binary" = inl docker ->
        Execute exe docker ["inspect"; id c] = (out, None) ->
        json.Unmarshal out = inl result ->
        result !! "NetworkSettings" = None
        \/ result !! "NetworkSettings" = Some json.VNil ->
        outcome (ip cfg exe c tr) = Returned (EmptyString, Some errNetworkSettings))
  /\ (forall docker out result ns,
        GetString cfg "docker:binary" = inl docker ->
        Execute exe docker ["inspect"; id c] = (out, None) ->
        json.Unmarshal out = inl result ->
        result !! "NetworkSettings" = Some (json.VMap ns) ->
        ns !! "IpAddress" = Some (json.VString EmptyString) ->
        outcome (ip cfg exe c tr) = Returned (EmptyString, Some errIpAddress))
  /\ List.NoDup [errInspect; errParse; errNetworkSettings; errIpAddress]
  /\ (forall s e, outcome (ip cfg exe c tr) = Returned (s, Some e) ->
      s = EmptyString).
Proof.
  split; [intros e; apply ip_config_fails|].
  split; [intros docker out e; apply ip_inspect_fails|].
  split; [intros docker out e; apply ip_parse_fails|].
  split; [intros docker out result; apply ip_no_network_settings|].
  split.
  { intros docker out result ns H1 H2 H3 H4 H5.
    now rewrite (ip_address _ _ _ _ _ _ _ _ _ H1 H2 H3 H4 H5). }
  split; [exact ip_errors_distinct|].
  intros s e. run_meth. split_matches; intros H; try discriminate H;
    now injection H as <- _.
Qed.

(** The five modes on concrete runs: no binary configured, a failing
    inspect, the text not-json, a null NetworkSettings, an empty address. *)
Lemma ip_failure_modes_witness :
  let cfg := config_of full_settings in
  ip (config_of (delete "docker:binary" full_settings))
     (answering inspect_address None) created []
  = (Returned (EmptyString, Some (key_not_found "docker:binary")), created, [])
  /\ outcome (ip cfg (answering "no such container" (Some exit1)) created [])
     = Returned (EmptyString, Some errInspect)
  /\ outcome (ip cfg (answering inspect_not_json None) created [])
     = Returned (EmptyString, Some errParse)
  /\ outcome (ip cfg (answering inspect_null None) created [])
     = Returned (EmptyString, Some errNetworkSettings)
  /\ outcome (ip cfg (answering inspect_empty_address None) created [])
     = Returned (EmptyString, Some errIpAddress).
Proof.
  intros cfg.
  split.
  { exact (proj1 (ip_failure_modes (config_of (delete "docker:binary" full_settings))
                    (answering inspect_address None) created [])
             (key_not_found "docker:binary") eq_refl). }
  split.
  { exact (proj1 (proj2 (ip_failure_modes cfg
                           (answering "no such container" (Some exit1)) created []))
             "docker" "no such container" exit1 eq_refl eq_refl). }
  split.
  { destruct decode_inspect_not_json as (e & Hd).
    exact (proj1 (proj2 (proj2 (ip_failure_modes cfg
                                  (answering inspect_not_json None) created [])))
             "docker" inspect_not_json e eq_refl eq_refl Hd). }
  split.
  { destruct decode_inspect_null as (result & Hd & Hns).
    exact (proj1 (proj2 (proj2 (proj2 (ip_failure_modes cfg
                                         (answering inspect_null None) created []))))
             "docker" inspect_null result eq_refl eq_refl Hd (or_intror Hns)). }
  destruct decode_inspect_empty_address as (result & ns & Hd & Hns & Hip).
  exact (proj1 (proj2 (proj2 (proj2 (proj2 (ip_failure_modes cfg
                   (answering inspect_empty_address None) created [])))))
           "docker" inspect_empty_address result ns eq_refl eq_refl Hd Hns Hip).
Defined.

Lemma decode_inspect_number :
  exists result,
    json.Unmarshal inspect_number = inl result
    /\ result !! "NetworkSettings" = Some (json.VFloat64 "5").
Proof. eexists. split; vm_compute; reflexivity. Qed.

Lemma decode_inspect_no_address :
  exists result ns,
    json.Unmarshal inspect_no_address = inl result
    /\ result !! "NetworkSettings" = Some (json.VMap ns)
    /\ ns !! "IpAddress" = None.
Proof.
  eexists _, _. split; [vm_compute; reflexivity|].
  split; vm_compute; reflexivity.
Qed.

Lemma decode_inspect_number_address :
  exists result ns,
    json.Unmarshal inspect_number_address = inl result
    /\ result !! "NetworkSettings" = Some (json.VMap ns)
    /\ ns !! "IpAddress" = Some (json.VFloat64 "7").
Proof.
  eexists _, _. split; [vm_compute; reflexivity|].
  split; vm_compute; reflexivity.
Qed.

(** C5: when the inspect output is a well-formed JSON object whose
    NetworkSettings is present and not null but is not an object, or is an
    object whose IpAddress is absent or not a string, [ip] returns nothing,
    neither address nor error: it panics on a type assertion. *)
Theorem ip_panics_on_unexpected_shape cfg exe c tr docker out result ns :
  GetString cfg "docker:binary" = inl docker ->
  Execute exe docker ["inspect"; id c] = (out, None) ->
  json.Unmarshal out = inl result ->
  result !! "NetworkSettings" = Some ns ->
  unexpected_shape ns = true ->
  (exists p, outcome (ip cfg exe c tr) = Panicked p)
  /\ (forall r, outcome (ip cfg exe c tr) <> Returned r).
Proof.
  intros H1 H2 H3 H4 H5.
  rewrite (ip_panics _ _ _ _ _ _ _ _ H1 H2 H3 H4 H5).
  split; [eexists; reflexivity | discriminate].
Qed.

(** Three such outputs: NetworkSettings is the number 5, is the empty
    object, is an object whose IpAddress is the number 7. *)
Lemma ip_panics_on_unexpected_shape_witness :
  let cfg := config_of full_settings in
  (exists p, outcome (ip cfg (answering inspect_number None) created []) = Panicked p)
  /\ (exists p, outcome (ip cfg (answering inspect_no_address None) created [])
                = Panicked p)
  /\ (exists p, outcome (ip cfg (answering inspect_number_address None) created [])
                = Panicked p).
Proof.
  intros cfg. split; [|split].
  - destruct decode_inspect_number as (result & Hd & Hns).
    exact (proj1 (ip_panics_on_unexpected_shape cfg (answering inspect_number None)
                    created [] "docker" inspect_number result (json.VFloat64 "5")
                    eq_refl eq_refl Hd Hns eq_refl)).
  - destruct decode_inspect_no_address as (result & ns & Hd & Hns & Hip).
    refine (proj1 (ip_panics_on_unexpected_shape cfg
                     (answering inspect_no_address None)
                     created [] "docker" inspect_no_address result (json.VMap ns)
                     eq_refl eq_refl Hd Hns _)).
    cbn [unexpected_shape]. now rewrite Hip.
  - destruct decode_inspect_number_address as (result & ns & Hd & Hns & Hip).
    refine (proj1 (ip_panics_on_unexpected_shape cfg
                     (answering inspect_number_address None)
                     created [] "docker" inspect_number_address result (json.VMap ns)
                     eq_refl eq_refl Hd Hns _)).
    cbn [unexpected_shape]. now rewrite Hip.
Defined.

(** * Further properties of the driver *)

(** ** stop and remove *)

(** X1: with the binary configured, [stop] invokes the runtime once, with
    [stop] and the id field, logs the raw output of the invocation last,
    and returns the invoker's error as it is: nil exactly when the
    invocation succeeded, whatever text was captured. *)
Theorem stop_invocation cfg exe c tr docker :
  GetString cfg "docker:binary" = inl docker ->
  let r := Execute exe docker ["stop"; id c] in
  outcome (stop cfg exe c tr) = Returned r.2
  /\ executions (trace (stop cfg exe c tr))
     = (executions tr ++ [Executed docker ["stop"; id c]])%list
  /\ last (trace (stop cfg exe c tr)) = Some (Printf "docker stop=%s" [OStr r.1]).
Proof.
  intros H r. subst r. run_meth. rewrite H. cbn [fst snd].
  destruct (Execute exe docker ["stop"; id c]) as [out err]. cbn [fst snd].
  split; [reflexivity|]. split.
  - rewrite !executions_app. cbn. now rewrite !app_nil_r.
  - apply last_snoc.
Qed.

(** A stop that fails although it printed the id, and one that succeeds
    although it printed a warning. *)
Lemma stop_invocation_witness :
  outcome (stop (config_of full_settings) (answering "abc123" (Some exit1)) created [])
  = Returned (Some exit1)
  /\ outcome (stop (config_of full_settings) (answering "WARNING: no swap" None)
                created [])
     = Returned None.
Proof.
  split.
  - exact (proj1 (stop_invocation (config_of full_settings)
                    (answering "abc123" (Some exit1)) created [] "docker" eq_refl)).
  - exact (proj1 (stop_invocation (config_of full_settings)
                    (answering "WARNING: no swap" None) created [] "docker" eq_refl)).
Defined.

(** X2: with the binary configured, [remove] invokes the runtime once, with
    [rm] and the id field, and returns the invoker's error as it is; the
    captured output is dropped: it appears in no log line, so two
    executors that differ only in their output leave the same trace. *)
Theorem remove_invocation cfg exe exe' c tr docker :
  GetString cfg "docker:binary" = inl docker ->
  outcome (remove cfg exe c tr) = Returned (Execute exe docker ["rm"; id c]).2
  /\ executions (trace (remove cfg exe c tr))
     = (executions tr ++ [Executed docker ["rm"; id c]])%list
  /\ trace (remove cfg exe' c tr) = trace (remove cfg exe c tr).
Proof.
  intros H. run_meth. rewrite H. cbn [fst snd].
  destruct (Execute exe docker ["rm"; id c]) as [out err].
  destruct (Execute exe' docker ["rm"; id c]) as [out' err']. cbn [fst snd].
  split; [reflexivity|]. split; [|reflexivity].
  rewrite !executions_app. cbn. now rewrite !app_nil_r.
Qed.

Lemma remove_invocation_witness :
  outcome (remove (config_of full_settings) (answering "abc123" (Some exit1)) created [])
  = Returned (Some exit1)
  /\ trace (remove (config_of full_settings) (answering "other" None) created [])
     = trace (remove (config_of full_settings) (answering "abc123" (Some exit1))
                created []).
Proof.
  destruct (remove_invocation (config_of full_settings)
              (answering "abc123" (Some exit1)) (answering "other" None)
              created [] "docker" eq_refl) as (H1 & _ & H3).
  split; [exact H1 | exact H3].
Defined.

(** ** create and ip: what is invoked *)

(** X3: once its four lookups succeed, [create] invokes the binary once,
    with [run -d], the template, the command and then the configured
    arguments in their order, and its last log line carries the identifier
    it returns, also when the invocation failed. *)
Theorem create_invocation cfg exe c tr docker template cmd args :
  GetString cfg "docker:binary" = inl docker ->
  GetString cfg "docker:image" = inl template ->
  GetString cfg "docker:cmd:bin" = inl cmd ->
  GetList cfg "docker:cmd:args" = inl args ->
  exists id err,
    outcome (create cfg exe c tr) = Returned (id, err)
    /\ executions (trace (create cfg exe c tr))
       = (executions tr
          ++ [Executed docker ("run" :: "-d" :: template :: cmd :: args)])%list
    /\ last (trace (create cfg exe c tr)) = Some (Printf "docker id=%s" [OStr id]).
Proof.
  intros H1 H2 H3 H4.
  rewrite (create_runs _ _ _ _ _ _ _ _ H1 H2 H3 H4). cbn zeta.
  eexists _, _. split; [reflexivity|]. unfold trace. cbn [snd]. split.
  - rewrite executions_app. cbn. reflexivity.
  - change (?t ++ [?a; ?b; ?d])%list with (t ++ [a; b] ++ [d])%list.
    rewrite app_assoc. apply last_snoc.
Qed.

Lemma create_invocation_witness :
  exists id err,
    outcome (create (config_of full_settings) (answering "boom" (Some exit1)) fresh [])
    = Returned (id, err)
    /\ executions (trace (create (config_of full_settings)
                            (answering "boom" (Some exit1)) fresh []))
       = (executions []
          ++ [Executed "docker" ["run"; "-d"; "base"; "/var/lib/tsuru/start"; "8888"]])%list
    /\ last (trace (create (config_of full_settings)
                      (answering "boom" (Some exit1)) fresh []))
       = Some (Printf "docker id=%s" [OStr id]).
Proof.
  exact (create_invocation (config_of full_settings) (answering "boom" (Some exit1))
           fresh [] "docker" "base" "/var/lib/tsuru/start" ["8888"]
           eq_refl eq_refl eq_refl eq_refl).
Defined.

Lemma ip_executions cfg exe c tr docker :
  GetString cfg "docker:binary" = inl docker ->
  executions (trace (ip cfg exe c tr))
  = (executions tr ++ [Executed docker ["inspect"; id c]])%list.
Proof.
  intros H. run_meth. rewrite H. cbn [fst snd]. split_matches;
    rewrite !executions_app; cbn; now rewrite ?app_nil_r.
Qed.

(** X4: with the binary configured, [ip] invokes the runtime exactly once,
    with [inspect] and the id field, whatever comes of it: an address, an
    error or a panic. *)
Theorem ip_invocation cfg exe c tr docker :
  GetString cfg "docker:binary" = inl docker ->
  executions (trace (ip cfg exe c tr))
  = (executions tr ++ [Executed docker ["inspect"; id c]])%list.
Proof. apply ip_executions. Qed.

Lemma ip_invocation_witness :
  executions (trace (ip (config_of full_settings) (answering inspect_number None)
                       created []))
  = [Executed "docker" ["inspect"; "abc123"]].
Proof.
  exact (ip_invocation (config_of full_settings) (answering inspect_number None)
           created [] "docker" eq_refl).
Defined.

(** ** ip: when it succeeds, when it panics *)

(** X5: [ip] returns a string without an error exactly when the binary is
    configured, the inspect invocation succeeded, its output decodes to an
    object whose NetworkSettings is an object whose IpAddress is a string,
    and that string is not empty; the string returned is that address.  So
    [ip] never hands out an empty address as a success. *)
Theorem ip_success cfg exe c tr s :
  outcome (ip cfg exe c tr) = Returned (s, None)
  <-> exists docker out result ns,
        GetString cfg "docker:binary" = inl docker
        /\ Execute exe docker ["inspect"; id c] = (out, None)
        /\ json.Unmarshal out = inl result
        /\ result !! "NetworkSettings" = Some (json.VMap ns)
        /\ ns !! "IpAddress" = Some (json.VString s)
        /\ s <> EmptyString.
Proof.
  split.
  - run_meth. split_matches; intros H; try discriminate H.
    injection H as <-.
    eexists _, _, _, _. repeat split; try eassumption.
    intros ->. discriminate.
  - intros (docker & out & result & ns & H1 & H2 & H3 & H4 & H5 & Hne).
    rewrite (ip_address _ _ _ _ _ _ _ _ _ H1 H2 H3 H4 H5).
    destruct (String.eqb_spec s EmptyString); [contradiction | reflexivity].
Qed.

(** X6: the unexpected shapes are the only way [ip] panics: when it does,
    the binary was configured, the inspect invocation had succeeded, and
    its output had decoded to an object whose NetworkSettings is neither
    absent nor null and is not an object with a string IpAddress.  A failed
    lookup, a failed invocation or a text that is not JSON never makes it
    panic. *)
Theorem ip_panics_only_on_unexpected_shape cfg exe c tr p :
  outcome (ip cfg exe c tr) = Panicked p ->
  exists docker out result ns,
    GetString cfg "docker:binary" = inl docker
    /\ Execute exe docker ["inspect"; id c] = (out, None)
    /\ json.Unmarshal out = inl result
    /\ result !! "NetworkSettings" = Some ns
    /\ unexpected_shape ns = true.
Proof.
  run_meth. split_matches; intros H; try discriminate H;
    eexists _, _, _, _; repeat split; try eassumption;
    cbn [unexpected_shape];
    repeat match goal with
    | E : _ !! "IpAddress" = _ |- _ => rewrite E
    end; reflexivity.
Qed.

Lemma ip_panics_only_on_unexpected_shape_witness :
  exists docker out result ns,
    GetString (config_of full_settings) "docker:binary" = inl docker
    /\ Execute (answering inspect_no_address None) docker ["inspect"; id created]
       = (out, None)
    /\ json.Unmarshal out = inl result
    /\ result !! "NetworkSettings" = Some ns
    /\ unexpected_shape ns = true.
Proof.
  exact (ip_panics_only_on_unexpected_shape (config_of full_settings)
           (answering inspect_no_address None) created []
           {| concrete := TNil; asserted := TString |} eq_refl).
Defined.

(** X7: no other operation can panic: create, start, stop, remove,
    repositoryName and commit always return, whatever the configuration
    and the executor answer. *)
Theorem only_ip_panics cfg exe c img cId tr :
  (exists r, outcome (create cfg exe c tr) = Returned r)
  /\ (exists r, outcome (start c tr) = Returned r)
  /\ (exists r, outcome (stop cfg exe c tr) = Returned r)
  /\ (exists r, outcome (remove cfg exe c tr) = Returned r)
  /\ (exists r, outcome (repositoryName cfg img tr) = Returned r)
  /\ (exists r, outcome (commit cfg exe cId img tr) = Returned r).
Proof.
  repeat split; run_meth; split_matches; eexists; reflexivity.
Qed.

(** ** One invocation at most *)

(** X8: every operation only appends to the trace, and what it appends
    holds at most one external invocation: the operations are single-shot,
    nothing is retried. *)
Theorem at_most_one_invocation cfg exe op c img tr :
  exists new,
    (reported cfg exe op c img tr).2 = (tr ++ new)%list
    /\ length (executions new) <= 1.
Proof.
  destruct op; unfold reported; run_meth; split_matches;
    rewrite <- ?app_assoc; cbn [app];
    first [ exists []; split; [now rewrite app_nil_r | cbn; lia]
          | eexists; split; [reflexivity | cbn; lia] ].
Qed.

(** ** ip: outputs that are no JSON object *)

Lemma decode_inspect_array :
  exists l, json.decode inspect_array = Some (json.VSlice l, None).
Proof. eexists. vm_compute. reflexivity. Qed.

(** X9: when the inspect output is valid JSON but its top-level value is no
    object, [ip] returns an error and never an address: the parse error
    for an array, a string, a boolean or a number, also a number too large
    for a float64 (the decoder refuses to store them in a map), the
    NetworkSettings error for [null] (which leaves the map nil). *)
Theorem ip_on_non_object cfg exe c tr docker out v saved :
  GetString cfg "docker:binary" = inl docker ->
  Execute exe docker ["inspect"; id c] = (out, None) ->
  json.decode out = Some (v, saved) ->
  json.typeof v <> TMap ->
  outcome (ip cfg exe c tr)
  = Returned (EmptyString,
              Some match v, saved with
                   | json.VNil, None => errNetworkSettings
                   | _, _ => errParse
                   end).
Proof.
  intros H1 H2 H3 H4.
  destruct v as [| b | lit | s | l | m]; try (now contradiction H4);
    try (eapply ip_parse_fails; [exact H1 | exact H2 |];
         unfold json.Unmarshal; rewrite H3; reflexivity).
  destruct saved as [f|].
  - eapply ip_parse_fails; [exact H1 | exact H2 |].
    unfold json.Unmarshal. rewrite H3. reflexivity.
  - eapply ip_no_network_settings; [exact H1 | exact H2 | |left; apply lookup_empty].
    unfold json.Unmarshal. now rewrite H3.
Qed.

Lemma decode_huge_number :
  exists f, json.decode "1e999" = Some (json.VNil, Some f).
Proof. eexists. vm_compute. reflexivity. Qed.

(** An array around the expected object and a number beyond the float64
    range are parse errors; [null] is a missing NetworkSettings. *)
Lemma ip_on_non_object_witness :
  outcome (ip (config_of full_settings) (answering inspect_array None) created [])
  = Returned (EmptyString, Some errParse)
  /\ outcome (ip (config_of full_settings) (answering "1e999" None) created [])
     = Returned (EmptyString, Some errParse)
  /\ outcome (ip (config_of full_settings) (answering "null" None) created [])
     = Returned (EmptyString, Some errNetworkSettings).
Proof.
  split; [|split].
  - destruct decode_inspect_array as (l & Hd).
    refine (ip_on_non_object (config_of full_settings)
              (answering inspect_array None) created [] "docker" inspect_array
              (json.VSlice l) None eq_refl eq_refl Hd _).
    discriminate.
  - destruct decode_huge_number as (f & Hd).
    refine (ip_on_non_object (config_of full_settings)
              (answering "1e999" None) created [] "docker" "1e999"
              json.VNil (Some f) eq_refl eq_refl Hd _).
    discriminate.
  - refine (ip_on_non_object (config_of full_settings)
              (answering "null" None) created [] "docker" "null"
              json.VNil None eq_refl eq_refl eq_refl _).
    discriminate.
Defined.

Lemma scan_all_leading_space (ws rest : list ascii) :
  forallb json.isSpace ws = true ->
  json.scan_all scanner_start (ws ++ rest) = json.scan_all scanner_start rest.
Proof.
  induction ws as [|ch ws IH]; [reflexivity|].
  cbn [forallb]. intros H. apply andb_prop in H as [Hch Hws].
  cbn [app json.scan_all].
  change (json.scan scanner_start ch) with (json.begin_value scanner_start ch).
  unfold json.begin_value. rewrite Hch. now apply IH.
Qed.

Lemma begin_value_refuses (ch : ascii) :
  json.isSpace ch = false -> begins_value ch = false ->
  json.begin_value scanner_start ch = None.
Proof.
  destruct ch as [[] [] [] [] [] [] [] []]; intros H1 H2;
    first [discriminate H1 | discriminate H2 | reflexivity].
Qed.

Lemma Unmarshal_blank_or_foreign (ws rest : list ascii) :
  forallb json.isSpace ws = true ->
  (forall ch tl, rest = ch :: tl ->
     json.isSpace ch = false /\ begins_value ch = false) ->
  json.Unmarshal (string_of_list_ascii (ws ++ rest))
  = inr (json.as_error json.SyntaxError).
Proof.
  intros Hws Hrest. unfold json.Unmarshal, json.decode.
  rewrite list_ascii_of_string_of_list_ascii.
  fold scanner_start. rewrite (scan_all_leading_space _ _ Hws).
  destruct rest as [|ch tl]; [reflexivity|].
  destruct (Hrest ch tl eq_refl) as [H1 H2].
  cbn [json.scan_all].
  change (json.scan scanner_start ch) with (json.begin_value scanner_start ch).
  now rewrite (begin_value_refuses ch H1 H2).
Qed.

(** X10: when the inspect invocation succeeds but its output is empty, is
    only white space, or has as its first byte after white space one that
    no JSON value begins with, [ip] returns the parse error: it neither
    panics nor reports a missing field. *)
Theorem ip_on_blank_or_foreign_output cfg exe c tr docker ws rest :
  GetString cfg "docker:binary" = inl docker ->
  Execute exe docker ["inspect"; id c] = (string_of_list_ascii (ws ++ rest), None) ->
  forallb json.isSpace ws = true ->
  (forall ch tl, rest = ch :: tl ->
     json.isSpace ch = false /\ begins_value ch = false) ->
  outcome (ip cfg exe c tr) = Returned (EmptyString, Some errParse).
Proof.
  intros H1 H2 Hws Hrest.
  exact (ip_parse_fails _ _ _ _ _ _ _ H1 H2 (Unmarshal_blank_or_foreign _ _ Hws Hrest)).
Qed.

(** The empty output, and a message of the runtime after a newline. *)
Lemma ip_on_blank_or_foreign_output_witness :
  outcome (ip (config_of full_settings) (answering EmptyString None) created [])
  = Returned (EmptyString, Some errParse)
  /\ outcome (ip (config_of full_settings)
                (answering (newline +:+ "Error: No such container") None) created [])
     = Returned (EmptyString, Some errParse).
Proof.
  split.
  - refine (ip_on_blank_or_foreign_output (config_of full_settings)
              (answering EmptyString None) created [] "docker" [] []
              eq_refl eq_refl eq_refl _).
    intros ch tl H. discriminate H.
  - refine (ip_on_blank_or_foreign_output (config_of full_settings)
              (answering (newline +:+ "Error: No such container") None) created []
              "docker" [LF] (list_ascii_of_string "Error: No such container")
              eq_refl eq_refl eq_refl _).
    intros ch tl H. injection H as <- _. split; reflexivity.
Defined.

(** ** repositoryName and commit, further *)

Lemma list_ascii_of_string_app (a b : string) :
  list_ascii_of_string (a +:+ b)
  = (list_ascii_of_string a ++ list_ascii_of_string b)%list.
Proof.
  induction a as [|ch a IH]; [reflexivity|].
  change (list_ascii_of_string (String ch (a +:+ b))
          = ch :: (list_ascii_of_string a ++ list_ascii_of_string b)%list).
  cbn [list_ascii_of_string]. now rewrite IH.
Qed.

Lemma append_inj_r (a b c : string) : a +:+ c = b +:+ c -> a = b.
Proof.
  intros H. apply (f_equal list_ascii_of_string) in H.
  rewrite !list_ascii_of_string_app in H. apply app_inv_tail in H.
  rewrite <- (string_of_list_ascii_of_string a),
          <- (string_of_list_ascii_of_string b).
  now rewrite H.
Qed.

Lemma append_inj_l (a b c : string) : a +:+ b = a +:+ c -> b = c.
Proof.
  induction a as [|ch a IH]; [easy|].
  intros H. apply IH.
  change (String ch (a +:+ b) = String ch (a +:+ c)) in H. now injection H.
Qed.

Lemma repository_not_empty (ns nm : string) : ns +:+ "/" +:+ nm <> EmptyString.
Proof. destruct ns; discriminate. Qed.

(** X11: [repositoryName] returns the empty string exactly when the lookup
    of the namespace fails: a configured namespace, even an empty one,
    gives a name that holds the slash.  The empty result is therefore a
    sure sign of the misconfiguration. *)
Theorem repositoryName_empty_iff cfg img tr :
  outcome (repositoryName cfg img tr) = Returned EmptyString
  <-> exists e, GetString cfg "docker:repository-namespace" = inr e.
Proof.
  run_meth.
  destruct (GetString cfg "docker:repository-namespace") as [ns|e]; cbn [fst snd].
  - rewrite Sprintf_repository. split.
    + intros H. injection H as H. now apply repository_not_empty in H.
    + intros (e & H). discriminate H.
  - split; [intros _; now exists e | reflexivity].
Qed.

(** X12: the repository name tells namespaces and image names apart: for
    one image name, two configured namespaces give the same repository
    name only when they are equal, and for one namespace, two image names
    give the same repository name only when they are equal. *)
Theorem repositoryName_injective cfg1 cfg2 img1 img2 tr ns1 ns2 :
  GetString cfg1 "docker:repository-namespace" = inl ns1 ->
  GetString cfg2 "docker:repository-namespace" = inl ns2 ->
  outcome (repositoryName cfg1 img1 tr) = outcome (repositoryName cfg2 img2 tr) ->
  (img_name img1 = img_name img2 -> ns1 = ns2)
  /\ (ns1 = ns2 -> img_name img1 = img_name img2).
Proof.
  intros H1 H2. run_meth. rewrite H1, H2. cbn [fst snd].
  rewrite !Sprintf_repository. intros H. injection H as H. split.
  - intros Hn. rewrite Hn in H. now apply append_inj_r in H.
  - intros Hn. rewrite Hn in H. apply append_inj_l in H.
    now apply (append_inj_l "/") in H.
Qed.

Lemma repositoryName_injective_witness :
  (img_name base = img_name base -> "tsuru" = "tsuru")
  /\ ("tsuru" = "tsuru" -> img_name base = img_name base).
Proof.
  exact (repositoryName_injective (config_of full_settings) (config_of full_settings)
           base base [] "tsuru" "tsuru" eq_refl eq_refl eq_refl).
Defined.

(** X13: the soft failure of [repositoryName] reaches the runtime: with the
    binary configured and the namespace lookup failing, [commit] still
    invokes the runtime once, with the empty string as repository name,
    and returns whatever that invocation returns. *)
Theorem commit_without_namespace cfg exe img cId tr docker e :
  GetString cfg "docker:binary" = inl docker ->
  GetString cfg "docker:repository-namespace" = inr e ->
  outcome (commit cfg exe cId img tr)
  = Returned (Execute exe docker ["commit"; cId; EmptyString]).2
  /\ executions (trace (commit cfg exe cId img tr))
     = (executions tr ++ [Executed docker ["commit"; cId; EmptyString]])%list.
Proof.
  intros H1 H2. run_meth. rewrite H1. cbn [fst snd]. rewrite H2. cbn [fst snd].
  destruct (Execute exe docker _) as [out [err|]]; cbn [fst snd];
    (split; [reflexivity|]);
    rewrite !executions_app; cbn; now rewrite ?app_nil_r.
Qed.

Lemma commit_without_namespace_witness :
  let cfg := config_of (delete "docker:repository-namespace" full_settings) in
  outcome (commit cfg (answering "sha" None) "abc123" base [])
  = Returned (Execute (answering "sha" None) "docker" ["commit"; "abc123"; EmptyString]).2
  /\ executions (trace (commit cfg (answering "sha" None) "abc123" base []))
     = (executions [] ++ [Executed "docker" ["commit"; "abc123"; EmptyString]])%list.
Proof.
  exact (commit_without_namespace
           (config_of (delete "docker:repository-namespace" full_settings))
           (answering "sha" None) base "abc123" [] "docker"
           (key_not_found "docker:repository-namespace") eq_refl eq_refl).
Defined.

(** ** How the operations compose *)

(** X14: a [stop] (or [remove], or [ip]) that follows [create] on the same
    container does not use the identifier [create] returned: it passes the
    id field as it was before [create] to the runtime.  The caller has to
    store the returned identifier in the field itself. *)
Theorem stop_after_create_uses_the_field cfg exe c tr docker :
  GetString cfg "docker:binary" = inl docker ->
  let x := create cfg exe c tr in
  last (executions (trace (stop cfg exe (receiver x) (trace x))))
  = Some (Executed docker ["stop"; id c])
  /\ last (executions (trace (remove cfg exe (receiver x) (trace x))))
     = Some (Executed docker ["rm"; id c])
  /\ last (executions (trace (ip cfg exe (receiver x) (trace x))))
     = Some (Executed docker ["inspect"; id c]).
Proof.
  intros H x.
  assert (Hc : receiver x = c).
  { subst x. run_meth. now split_matches. }
  rewrite Hc. repeat split.
  - run_meth. rewrite H. cbn [fst snd].
    destruct (Execute exe docker ["stop"; id c]) as [out err]. cbn [fst snd].
    rewrite !executions_app. cbn. rewrite !app_nil_r. apply last_snoc.
  - run_meth. rewrite H. cbn [fst snd].
    destruct (Execute exe docker ["rm"; id c]) as [out err]. cbn [fst snd].
    rewrite !executions_app. cbn. rewrite !app_nil_r. apply last_snoc.
  - rewrite (ip_executions _ _ _ _ _ H). apply last_snoc.
Qed.

(** A fresh container whose [create] returned [abc123] is stopped with an
    empty id. *)
Lemma stop_after_create_uses_the_field_witness :
  let x := create (config_of full_settings) (answering ("abc123" +:+ newline) None)
             fresh [] in
  outcome x = Returned ("abc123", None)
  /\ last (executions (trace (stop (config_of full_settings)
                                (answering ("abc123" +:+ newline) None)
                                (receiver x) (trace x))))
     = Some (Executed "docker" ["stop"; EmptyString]).
Proof.
  split; [reflexivity|].
  exact (proj1 (stop_after_create_uses_the_field (config_of full_settings)
                  (answering ("abc123" +:+ newline) None) fresh [] "docker" eq_refl)).
Defined.

(** X15: an operation depends on the configuration only through the keys
    it looks up: stop, remove and ip through docker:binary; create through
    docker:binary, docker:image, docker:cmd:bin and docker:cmd:args;
    repositoryName through docker:repository-namespace; commit through
    docker:binary and docker:repository-namespace.  Two configurations
    that agree on those keys give the same result, receiver and trace. *)
Theorem operations_read_only_their_keys cfg1 cfg2 exe c img cId tr :
  (GetString cfg1 "docker:binary" = GetString cfg2 "docker:binary" ->
   stop cfg1 exe c tr = stop cfg2 exe c tr
   /\ remove cfg1 exe c tr = remove cfg2 exe c tr
   /\ ip cfg1 exe c tr = ip cfg2 exe c tr
   /\ (GetString cfg1 "docker:image" = GetString cfg2 "docker:image" ->
       GetString cfg1 "docker:cmd:bin" = GetString cfg2 "docker:cmd:bin" ->
       GetList cfg1 "docker:cmd:args" = GetList cfg2 "docker:cmd:args" ->
       create cfg1 exe c tr = create cfg2 exe c tr)
   /\ (GetString cfg1 "docker:repository-namespace"
       = GetString cfg2 "docker:repository-namespace" ->
       commit cfg1 exe cId img tr = commit cfg2 exe cId img tr))
  /\ (GetString cfg1 "docker:repository-namespace"
      = GetString cfg2 "docker:repository-namespace" ->
      repositoryName cfg1 img tr = repositoryName cfg2 img tr).
Proof.
  split.
  - intros Hb. repeat split.
    + unfold stop. now rewrite Hb.
    + unfold remove. now rewrite Hb.
    + unfold ip. now rewrite Hb.
    + intros Hi Hc Ha. unfold create. now rewrite Hb, Hi, Hc, Ha.
    + intros Hn. unfold commit, repositoryName. now rewrite Hb, Hn.
  - intros Hn. unfold repositoryName. now rewrite Hn.
Qed.

(** Dropping the namespace changes nothing for stop; adding a key nobody
    reads changes nothing for create. *)
Lemma operations_read_only_their_keys_witness :
  stop (config_of full_settings) (answering "abc123" None) created []
  = stop (config_of (delete "docker:repository-namespace" full_settings))
      (answering "abc123" None) created []
  /\ create (config_of full_settings) (answering "abc123" None) fresh []
     = create (config_of (<["docker:router" := SString "hipache"]> full_settings))
         (answering "abc123" None) fresh [].
Proof.
  split.
  - destruct (operations_read_only_their_keys
                (config_of full_settings)
                (config_of (delete "docker:repository-namespace" full_settings))
                (answering "abc123" None) created base "abc123" []) as [H _].
    destruct H as (Hstop & _); [vm_compute; reflexivity | exact Hstop].
  - destruct (operations_read_only_their_keys
                (config_of full_settings)
                (config_of (<["docker:router" := SString "hipache"]> full_settings))
                (answering "abc123" None) fresh base "abc123" []) as [H _].
    destruct H as (_ & _ & _ & Hcreate & _); [vm_compute; reflexivity|].
    apply Hcreate; vm_compute; reflexivity.
Defined.

(** ** ip: what is logged when it fails *)

(** X17: an error [ip] makes itself is logged before it is returned: the
    last line of the trace then carries the text of the returned error.
    The one error that is returned without any log line is the failed
    lookup of the binary, which leaves the trace as it was. *)
Theorem ip_logs_its_errors cfg exe c tr s e :
  outcome (ip cfg exe c tr) = Returned (s, Some e) ->
  (GetString cfg "docker:binary" = inr e /\ trace (ip cfg exe c tr) = tr)
  \/ (exists ops, last (trace (ip cfg exe c tr)) = Some (Printf (Error e) ops))
  \/ last (trace (ip cfg exe c tr)) = Some (Print (Error e)).
Proof.
  run_meth. split_matches; intros H; try discriminate H;
    injection H as <- <-;
    first [ left; split; reflexivity
          | right; left; eexists; apply last_snoc
          | right; right; apply last_snoc ].
Qed.

Lemma ip_logs_its_errors_witness :
  let x := ip (config_of full_settings) (answering inspect_null None) created [] in
  (GetString (config_of full_settings) "docker:binary" = inr errNetworkSettings
   /\ trace x = [])
  \/ (exists ops, last (trace x) = Some (Printf (Error errNetworkSettings) ops))
  \/ last (trace x) = Some (Print (Error errNetworkSettings)).
Proof.
  exact (ip_logs_its_errors (config_of full_settings) (answering inspect_null None)
           created [] EmptyString errNetworkSettings eq_refl).
Defined.

(** ** filesystem *)

(** X16: [filesystem()] hands out the handle the package variable holds
    and never replaces it, so a handle installed beforehand (a fake, in a
    test) stays in use; only when the variable is nil does it install the
    OS filesystem.  Afterwards the variable holds the handle returned, and
    a second call returns the same handle and changes nothing. *)
Theorem filesystem_lazy (Fs : Type) (OsFs : Fs) (fsystem : option Fs) :
  let x := filesystem Fs OsFs fsystem in
  x.2 = Some x.1
  /\ filesystem Fs OsFs x.2 = x
  /\ (forall f, fsystem = Some f -> x.1 = f /\ x.2 = fsystem)
  /\ (fsystem = None -> x.1 = OsFs).
Proof.
  destruct fsystem as [f|]; cbn; repeat split; congruence.
Qed.

(** ** create: the order of its lookups *)

(** X18: [create] looks its keys up in the order docker:binary,
    docker:image, docker:cmd:bin, docker:cmd:args and returns the error of
    the first lookup that fails, whatever the later ones would give,
    leaving the trace untouched: nothing is logged and nothing invoked. *)
Theorem create_first_failure cfg exe c tr :
  (forall e, GetString cfg "docker:binary" = inr e ->
     create cfg exe c tr = (Returned (EmptyString, Some e), c, tr))
  /\ (forall docker e,
        GetString cfg "docker:binary" = inl docker ->
        GetString cfg "docker:image" = inr e ->
        create cfg exe c tr = (Returned (EmptyString, Some e), c, tr))
  /\ (forall docker template e,
        GetString cfg "docker:binary" = inl docker ->
        GetString cfg "docker:image" = inl template ->
        GetString cfg "docker:cmd:bin" = inr e ->
        create cfg exe c tr = (Returned (EmptyString, Some e), c, tr))
  /\ (forall docker template cmd e,
        GetString cfg "docker:binary" = inl docker ->
        GetString cfg "docker:image" = inl template ->
        GetString cfg "docker:cmd:bin" = inl cmd ->
        GetList cfg "docker:cmd:args" = inr e ->
        create cfg exe c tr = (Returned (EmptyString, Some e), c, tr)).
Proof.
  unfold create. repeat split.
  - intros e H. now rewrite H.
  - intros docker e H1 H2. now rewrite H1, H2.
  - intros docker template e H1 H2 H3. now rewrite H1, H2, H3.
  - intros docker template cmd e H1 H2 H3 H4. now rewrite H1, H2, H3, H4.
Qed.

(** With neither binary nor image configured the error names the binary;
    with only the image missing it names the image. *)
Lemma create_first_failure_witness :
  create (config_of (delete "docker:binary" (delete "docker:image" full_settings)))
    (answering "abc123" None) fresh []
  = (Returned (EmptyString, Some (key_not_found "docker:binary")), fresh, [])
  /\ create (config_of (delete "docker:image" full_settings))
       (answering "abc123" None) fresh []
     = (Returned (EmptyString, Some (key_not_found "docker:image")), fresh, []).
Proof.
  split.
  - apply (proj1 (create_first_failure _ _ _ _)). vm_compute. reflexivity.
  - apply (proj1 (proj2 (create_first_failure _ _ _ _)) "docker");
      vm_compute; reflexivity.
Defined.

(** ** What the operations do not look at *)

(** X19: [create] does not look at its container at all, neither at the
    name nor at the id: two containers get the same invocation and the
    same result.  stop, remove and ip look at the id only, and
    repositoryName and commit at the image's name only: the container's
    name and the image's id reach neither the runtime nor the logs. *)
Theorem operations_ignore_other_fields cfg exe c1 c2 img1 img2 cId tr :
  outcome (create cfg exe c1 tr) = outcome (create cfg exe c2 tr)
  /\ trace (create cfg exe c1 tr) = trace (create cfg exe c2 tr)
  /\ (id c1 = id c2 ->
      outcome (stop cfg exe c1 tr) = outcome (stop cfg exe c2 tr)
      /\ trace (stop cfg exe c1 tr) = trace (stop cfg exe c2 tr)
      /\ outcome (remove cfg exe c1 tr) = outcome (remove cfg exe c2 tr)
      /\ trace (remove cfg exe c1 tr) = trace (remove cfg exe c2 tr)
      /\ outcome (ip cfg exe c1 tr) = outcome (ip cfg exe c2 tr)
      /\ trace (ip cfg exe c1 tr) = trace (ip cfg exe c2 tr))
  /\ (img_name img1 = img_name img2 ->
      outcome (repositoryName cfg img1 tr) = outcome (repositoryName cfg img2 tr)
      /\ outcome (commit cfg exe cId img1 tr) = outcome (commit cfg exe cId img2 tr)
      /\ trace (commit cfg exe cId img1 tr) = trace (commit cfg exe cId img2 tr)).
Proof.
  split; [|split; [|split]].
  - run_meth. now split_matches.
  - run_meth. now split_matches.
  - intros Hid. repeat split; run_meth;
      destruct (GetString cfg "docker:binary"); cbn [fst snd];
      rewrite ?Hid; now split_matches.
  - intros Hn. repeat split; run_meth;
      try (destruct (GetString cfg "docker:binary"); cbn [fst snd]);
      destruct (GetString cfg "docker:repository-namespace"); cbn [fst snd];
      rewrite ?Hn; now split_matches.
Qed.

(** Two containers that share the id but not the name are stopped alike;
    two images that share the name but not the id are committed alike. *)
Lemma operations_ignore_other_fields_witness :
  let cfg := config_of full_settings in
  let exe := answering "abc123" None in
  trace (stop cfg exe created []) = trace (stop cfg exe {| name := "other"; id := "abc123" |} [])
  /\ trace (commit cfg exe "abc123" base [])
     = trace (commit cfg exe "abc123" {| img_name := "base"; img_id := "f00" |} []).
Proof.
  intros cfg exe.
  destruct (operations_ignore_other_fields cfg exe created
              {| name := "other"; id := "abc123" |} base
              {| img_name := "base"; img_id := "f00" |} "abc123" [])
    as (_ & _ & Hc & Hi).
  split.
  - exact (proj1 (proj2 (Hc eq_refl))).
  - exact (proj2 (proj2 (Hi eq_refl))).
Defined.
